(** * AI-Body-Measurement: the apparel size classifier and the estimator's
      input validation, embedded from [single_person_processor.py].

    Numbers.  Python's [int] is [Z].  A finite Python [float] is a rational,
    so measurements, heights and weights are values of [Q]; Python compares
    an [int] with a [float] exactly, which is what [Qle_bool] against
    [inject_Z] does.  NaN and the infinities are outside this model.

    Dictionaries.  The measurement dictionary is a [gmap string Q];
    [SIZE_CHARTS] is a [gmap] from the gender string to a record holding
    the two ordered charts.  A subscript on a missing key raises
    [KeyError], a subscript past the end of a sequence [IndexError].

    Exceptions.  A function that can raise returns a [result]. *)

From Stdlib Require Import QArith Qround Qabs ZArith Lia Lqa String.
From stdpp Require Import gmap strings list fin_maps.

Local Open Scope string_scope.
Local Open Scope Z_scope.

(** ** Exceptions *)

Inductive exn : Type :=
  | ValueError (msg : string)
  | KeyError (key : string)
  | IndexError
  | ExternalError (msg : string).

Inductive result (A : Type) : Type :=
  | Ok (a : A)
  | Raise (e : exn).
Arguments Ok {A} a.
Arguments Raise {A} e.

Definition rbind {A B} (r : result A) (k : A -> result B) : result B :=
  match r with
  | Ok a => k a
  | Raise e => Raise e
  end.

Declare Scope result_scope.
Delimit Scope result_scope with result.
Notation "x <~ r ; k" := (rbind r (fun x => k))
  (at level 100, r at next level, right associativity) : result_scope.
Local Open Scope result_scope.

(** ** Comparisons of Python numbers *)

(** [x > y] *)
Definition Qgtb (x y : Q) : bool := negb (Qle_bool x y).

(** [x <= n] for an [int] bound [n] *)
Definition Qle_int (x : Q) (n : Z) : bool := Qle_bool x (inject_Z n).

(** [d[k]] on a dictionary *)
Definition getitem {V} (d : gmap string V) (k : string) : result V :=
  match d !! k with
  | Some v => Ok v
  | None => Raise (KeyError k)
  end.

(** [l[-1]] on a list *)
Definition getlast {A} (l : list A) : result A :=
  match last l with
  | Some a => Ok a
  | None => Raise IndexError
  end.

(** ** SinglePersonPredictor.MEASUREMENT_INDICES and SIZE_CHARTS *)

(** The items of the dictionary, in insertion order. *)
Definition MEASUREMENT_INDICES : list (string * nat) :=
  [ ("ankle", 0%nat); ("arm-length", 1%nat); ("bicep", 2%nat); ("calf", 3%nat);
    ("chest", 4%nat); ("forearm", 5%nat); ("height", 6%nat); ("hip", 7%nat);
    ("leg-length", 8%nat); ("shoulder-breadth", 9%nat);
    ("shoulder-to-crotch", 10%nat); ("thigh", 11%nat); ("waist", 12%nat);
    ("wrist", 13%nat) ].

Record size_chart : Type := {
  tshirt : list (Z * Z * string);
  pants : list (Z * Z * Z)
}.

Definition male_chart : size_chart := {|
  tshirt := [ (97, 42, "S"); (104, 45, "M"); (112, 48, "L");
              (120, 51, "XL"); (128, 54, "XXL"); (136, 57, "XXXL") ];
  pants := [ (76, 102, 30); (81, 107, 32); (86, 112, 34);
             (91, 117, 36); (97, 122, 38); (102, 127, 40); (107, 132, 42) ]
|}.

Definition female_chart : size_chart := {|
  tshirt := [ (89, 38, "S"); (96, 41, "M"); (104, 44, "L");
              (112, 47, "XL"); (120, 50, "XXL"); (128, 53, "XXXL") ];
  pants := [ (66, 92, 26); (71, 97, 28); (76, 102, 30);
             (81, 107, 32); (86, 112, 34); (91, 117, 36); (97, 122, 38) ]
|}.

Definition SIZE_CHARTS : gmap string size_chart :=
  <["male" := male_chart]> (<["female" := female_chart]> ∅).

(** ** The classifier *)

(** ['male' if gender == 0 else 'female'] *)
Definition gender_str (gender : Z) : string :=
  if gender =? 0 then "male" else "female".

(** [next((size for max_a, max_b, size in chart if a <= max_a and b <= max_b),
    default)]: the size of the first row that passes the filter, the
    default when the generator is exhausted. *)
Fixpoint next_fit {L} (chart : list (Z * Z * L)) (a b : Q) (default : L) : L :=
  match chart with
  | [] => default
  | (max_a, max_b, size) :: rest =>
      if Qle_int a max_a && Qle_int b max_b then size
      else next_fit rest a b default
  end.

(** [if weight > 95 and gender == 0 or weight > 80 and gender == 1:
       base_size = 'XXL'] *)
Definition weight_override (gender : Z) (weight : Q) (base_size : string) : string :=
  if Qgtb weight 95 && (gender =? 0) || Qgtb weight 80 && (gender =? 1)
  then "XXL" else base_size.

(** [if measurements['height'] > 180: base_size = f"Tall {base_size}"] *)
Definition tall_prefix (height : Q) (base_size : string) : string :=
  if Qgtb height 180 then "Tall " +:+ base_size else base_size.

Definition calculate_tshirt_size
    (gender : Z) (measurements : gmap string Q) (weight : Q) : result string :=
  charts <~ getitem SIZE_CHARTS (gender_str gender);
  let chart := tshirt charts in
  chest <~ getitem measurements "chest";
  shoulder_breadth <~ getitem measurements "shoulder-breadth";
  let base_size := next_fit chart chest shoulder_breadth "XXXL" in
  let base_size := weight_override gender weight base_size in
  height <~ getitem measurements "height";
  Ok (tall_prefix height base_size).

(** [if measurements['height'] > 180 and gender == 0:
       base_size += 2 if base_size < 40 else 0] *)
Definition height_adjust (gender : Z) (height : Q) (base_size : Z) : Z :=
  if Qgtb height 180 && (gender =? 0)
  then base_size + (if base_size <? 40 then 2 else 0)
  else base_size.

Definition calculate_pants_size
    (gender : Z) (measurements : gmap string Q) (weight : Q) : result Z :=
  charts <~ getitem SIZE_CHARTS (gender_str gender);
  let chart := pants charts in
  waist <~ getitem measurements "waist";
  hip <~ getitem measurements "hip";
  default <~ getlast chart;
  let base_size := next_fit chart waist hip (default.2) in
  height <~ getitem measurements "height";
  Ok (height_adjust gender height base_size).

Definition calculate_apparel_size
    (gender : Z) (measurements : gmap string Q) (weight : Q) : result (string * Z) :=
  tshirt_size <~ calculate_tshirt_size gender measurements weight;
  pants_size <~ calculate_pants_size gender measurements weight;
  Ok (tshirt_size, pants_size).

(** ** The estimator *)

(** [round(x, 2)] on a finite float: the nearest multiple of 1/100, a tie
    going to the even one.  The binary representation error of the
    returned float is not modelled: the value is the exact decimal. *)
Definition round_half_even (q : Q) : Z :=
  let f := Qfloor q in
  match Qcompare (q - inject_Z f) (1 # 2) with
  | Lt => f
  | Gt => f + 1
  | Eq => if Z.even f then f else f + 1
  end.

Definition round2 (x : Q) : Q := Qmake (round_half_even (x * 100)) 100.

(** [{name: round(float(row[idx]), 2) for name, idx in items}], the
    entries being inserted in the order of [items] into [acc]. *)
Fixpoint dict_of_row (items : list (string * nat)) (row : list Q)
    (acc : gmap string Q) : result (gmap string Q) :=
  match items with
  | [] => Ok acc
  | (name, idx) :: rest =>
      match row !! idx with
      | Some x => dict_of_row rest row (<[name := round2 x]> acc)
      | None => Raise IndexError
      end
  end.

(** Lines 176-179: [prediction[0][idx]] for every item of
    [MEASUREMENT_INDICES]. *)
Definition build_measurements (prediction : list (list Q)) : result (gmap string Q) :=
  match prediction !! 0%nat with
  | Some row => dict_of_row MEASUREMENT_INDICES row ∅
  | None => Raise IndexError
  end.

(** [{k: measurements[k] for k in keys if k in measurements}] *)
Definition select_keys (keys : list string) (measurements : gmap string Q)
    : gmap string Q :=
  foldl (fun acc k =>
           match measurements !! k with
           | Some v => <[k := v]> acc
           | None => acc
           end) ∅ keys.

Definition upper_body_keys : list string :=
  [ "chest"; "shoulder-breadth"; "bicep"; "forearm"; "wrist"; "arm-length";
    "shoulder-to-crotch" ].

Definition lower_body_keys : list string :=
  [ "waist"; "hip"; "thigh"; "calf"; "ankle"; "leg-length" ].

(** The values stored in the result dictionary. *)
Inductive pyvalue : Type :=
  | VStr (s : string)
  | VInt (n : Z)
  | VDict (d : gmap string Q).

(** Lines 155-162: the four checks, in order; the first that fails raises. *)
Definition validate_inputs (gender : Z) (height_cm weight_kg : Q)
    (apparel_type : string) : result unit :=
  if negb ((gender =? 0) || (gender =? 1)) then
    Raise (ValueError "Gender must be 0 (male) or 1 (female).")
  else if negb (Qle_bool 100 height_cm && Qle_bool height_cm 250) then
    Raise (ValueError "Height must be between 100-250 cm.")
  else if negb (Qle_bool 30 weight_kg && Qle_bool weight_kg 300) then
    Raise (ValueError "Weight must be between 30-300 kg.")
  else if negb (existsb (String.eqb apparel_type) ["tshirt"; "pants"; "all"]) then
    Raise (ValueError "Apparel type must be 'tshirt', 'pants', or 'all'.")
  else Ok tt.

(** What the estimator does to the outside world, in order. *)
Inductive event : Type :=
  | EvProcessImage (path : string)
  | EvPredict (meta : Z * Q * Q)
  | EvLogError (msg : string).

(** A computation that leaves a trace of events and returns or raises. *)
Definition M (A : Type) : Type := list event * result A.

Definition mret {A} (a : A) : M A := ([], Ok a).

Definition mbind {A B} (m : M A) (k : A -> M B) : M B :=
  match m with
  | (t, Ok a) => let (t', r) := k a in ((t ++ t')%list, r)
  | (t, Raise e) => (t, Raise e)
  end.

Definition emit (ev : event) : M unit := ([ev], Ok tt).

Definition lift {A} (r : result A) : M A := ([], r).

(** [try: body  except Exception as e: handler(e)] *)
Definition try_except {A} (body : M A) (handler : exn -> M A) : M A :=
  match body with
  | (t, Raise e) => let (t', r) := handler e in ((t ++ t')%list, r)
  | (t, Ok a) => (t, Ok a)
  end.

Notation "x <- m ;; k" := (mbind m (fun x => k))
  (at level 100, m at next level, right associativity) : result_scope.

(** [str(e)] *)
Definition exn_str (e : exn) : string :=
  match e with
  | ValueError msg => msg
  | KeyError key => "'" +:+ key +:+ "'"
  | IndexError => "index out of range"
  | ExternalError msg => msg
  end.

(** Lines 181-201: the result dictionary for the requested apparel type,
    from the measurement dictionary that was built before. *)
Definition assemble_result (gender : Z) (weight_kg : Q) (apparel_type : string)
    (measurements : gmap string Q) : M (gmap string pyvalue) :=
  if String.eqb apparel_type "tshirt" then
    size <- lift (calculate_tshirt_size gender measurements weight_kg) ;;
    mret (<["upper_body_measurements" :=
              VDict (select_keys upper_body_keys measurements)]>
            (<["tshirt_size" := VStr size]> ∅))
  else if String.eqb apparel_type "pants" then
    size <- lift (calculate_pants_size gender measurements weight_kg) ;;
    mret (<["lower_body_measurements" :=
              VDict (select_keys lower_body_keys measurements)]>
            (<["pants_size" := VInt size]> ∅))
  else if String.eqb apparel_type "all" then
    sizes <- lift (calculate_apparel_size gender measurements weight_kg) ;;
    mret (<["pants_size" := VInt sizes.2]>
            (<["tshirt_size" := VStr sizes.1]>
               (<["body_measurements" := VDict measurements]> ∅)))
  else mret ∅.

Section Predictor.

(** The two external capabilities: background removal and normalisation
    of one image file, and the trained model.  The metadata row
    [[gender, height_cm, weight_kg]] is handed to the model as it is. *)
Context {image : Type}.
Variable _process_image : string -> result image.
Variable model_predict : image -> image -> Z * Q * Q -> result (list (list Q)).

Definition process_single_person (front_path side_path : string)
    : M (image * image) :=
  front <- (_ <- emit (EvProcessImage front_path) ;; lift (_process_image front_path)) ;;
  side <- (_ <- emit (EvProcessImage side_path) ;; lift (_process_image side_path)) ;;
  mret (front, side).

Definition predict_measurements (front_img_path side_img_path : string)
    (gender : Z) (height_cm weight_kg : Q) (apparel_type : string)
    : M (gmap string pyvalue) :=
  try_except
    (_ <- lift (validate_inputs gender height_cm weight_kg apparel_type) ;;
     arrs <- process_single_person front_img_path side_img_path ;;
     let meta_arr := (gender, height_cm, weight_kg) in
     prediction <- (_ <- emit (EvPredict meta_arr) ;;
                    lift (model_predict arrs.1 arrs.2 meta_arr)) ;;
     measurements <- lift (build_measurements prediction) ;;
     assemble_result gender weight_kg apparel_type measurements)
    (fun e =>
       _ <- emit (EvLogError ("Prediction failed: " +:+ exn_str e)) ;;
       lift (Raise e)).

End Predictor.

(** ** Vocabulary of the statements *)

(** A chart row admits the subject when both of its bounds are at least the
    subject's two values. *)
Definition fits {L} (a b : Q) (row : Z * Z * L) : Prop :=
  (a <= inject_Z row.1.1)%Q /\ (b <= inject_Z row.1.2)%Q.

(** The charts that [SIZE_CHARTS[gender_str]] selects. *)
Definition charts_of (gender : Z) : size_chart :=
  if gender =? 0 then male_chart else female_chart.

(** The size of the last row of a pants chart, [chart[-1][2]]. *)
Definition last_size (chart : list (Z * Z * Z)) : Z :=
  match last chart with
  | Some row => row.2
  | None => 0
  end.

(** The closed vocabulary of the 14 measurement names. *)
Definition measurement_names : list string := MEASUREMENT_INDICES.*1.

(** A measurement set is well formed when its keys are exactly the 14 names. *)
Definition well_formed (m : gmap string Q) : Prop :=
  dom m = list_to_set measurement_names.

(** The weight condition of the t-shirt override. *)
Definition overweight (gender : Z) (weight : Q) : Prop :=
  ((95 < weight)%Q /\ gender = 0) \/ ((80 < weight)%Q /\ gender = 1).

(** A well-formed measurement set with the given values under the five keys
    the classifier reads. *)
Definition subject (chest shoulder height waist hip : Q) : gmap string Q :=
  list_to_map
    [ ("ankle", 22%Q); ("arm-length", 50%Q); ("bicep", 30%Q); ("calf", 36%Q);
      ("chest", chest); ("forearm", 25%Q); ("height", height); ("hip", hip);
      ("leg-length", 80%Q); ("shoulder-breadth", shoulder);
      ("shoulder-to-crotch", 64%Q); ("thigh", 52%Q); ("waist", waist);
      ("wrist", 17%Q) ].

(** The index of a label in a t-shirt chart: the position of the first row
    that carries it.  The default "XXXL" is also the label of the last
    row, so it has the largest index of the chart. *)
Fixpoint tier_index (chart : list (Z * Z * string)) (label : string) : nat :=
  match chart with
  | [] => 0%nat
  | (_, _, size) :: rest =>
      if String.eqb size label then 0%nat else S (tier_index rest label)
  end.

(** The position at which the scan stops: the index of the first row that
    admits the subject, the length of the chart when none does. *)
Fixpoint fit_pos {L} (chart : list (Z * Z * L)) (a b : Q) : nat :=
  match chart with
  | [] => 0%nat
  | (max_a, max_b, _) :: rest =>
      if Qle_int a max_a && Qle_int b max_b then 0%nat
      else S (fit_pos rest a b)
  end.

(** The inputs that the estimator's contract admits. *)
Definition valid_gender (gender : Z) : Prop := gender = 0 \/ gender = 1.

Definition valid_height (height_cm : Q) : Prop :=
  (100 <= height_cm)%Q /\ (height_cm <= 250)%Q.

Definition valid_weight (weight_kg : Q) : Prop :=
  (30 <= weight_kg)%Q /\ (weight_kg <= 300)%Q.

Definition valid_apparel (apparel_type : string) : Prop :=
  apparel_type = "tshirt" \/ apparel_type = "pants" \/ apparel_type = "all".

Definition valid_inputs (gender : Z) (height_cm weight_kg : Q)
    (apparel_type : string) : Prop :=
  valid_gender gender /\ valid_height height_cm /\ valid_weight weight_kg /\
  valid_apparel apparel_type.

(** An event of image processing or of prediction. *)
Definition is_estimation (ev : event) : Prop :=
  match ev with
  | EvProcessImage _ | EvPredict _ => True
  | EvLogError _ => False
  end.

(** Deterministic stand-ins for the two capabilities. *)
Definition sample_row : list Q :=
  [ 22.514; 50.2; 30; 36; 90.005; 25; 185.126; 98; 80; 40.015; 64; 52;
    82.5; 16.994 ]%Q.

Definition stub_process_image (path : string) : result unit := Ok tt.

Definition stub_model (front side : unit) (meta : Z * Q * Q)
    : result (list (list Q)) := Ok [sample_row].

(** [sample_row] rounded to two decimals, under the 14 names. *)
Definition sample_measurements : gmap string Q :=
  list_to_map
    [ ("ankle", 22.51); ("arm-length", 50.20); ("bicep", 30.00);
      ("calf", 36.00); ("chest", 90.00); ("forearm", 25.00);
      ("height", 185.13); ("hip", 98.00); ("leg-length", 80.00);
      ("shoulder-breadth", 40.02); ("shoulder-to-crotch", 64.00);
      ("thigh", 52.00); ("waist", 82.50); ("wrist", 16.99) ]%Q.

(** ** The request handler of [main.py] *)

(** The values that [json.loads] puts under a key of the request's
    [input_data], as far as the handler and the estimator tell them apart:
    a list or a dictionary is only ever compared, never opened. *)
Inductive pyobj : Type :=
  | PyNone
  | PyBool (b : bool)
  | PyInt (n : Z)
  | PyFloat (x : Q)
  | PyStr (s : string)
  | PyList
  | PyDict.

(** [type(v).__name__] *)
Definition type_name (v : pyobj) : string :=
  match v with
  | PyNone => "NoneType"
  | PyBool _ => "bool"
  | PyInt _ => "int"
  | PyFloat _ => "float"
  | PyStr _ => "str"
  | PyList => "list"
  | PyDict => "dict"
  end.

(** What [json.loads(input_data)] returns: a dictionary, or a value of
    another type, of which only the type's name matters. *)
Inductive pyjson : Type :=
  | JObject (d : gmap string pyobj)
  | JNotObject (type_name : string).

(** [d.get(key)]: [None] when the key is missing. *)
Definition dict_get (d : gmap string pyobj) (key : string) : pyobj :=
  match d !! key with
  | Some v => v
  | None => PyNone
  end.

(** The exceptions of the dynamically typed layer: those of the estimator
    and the two that ill-typed request fields cause. *)
Inductive pyexn : Type :=
  | TypeError (msg : string)
  | AttributeError (msg : string)
  | Estimator (e : exn).

Definition pyexn_str (e : pyexn) : string :=
  match e with
  | TypeError msg => msg
  | AttributeError msg => msg
  | Estimator e => exn_str e
  end.

(** The number that Python compares when the value is a [bool], an [int]
    or a [float]; no other type is ordered against an [int]. *)
Definition number_of (v : pyobj) : option Q :=
  match v with
  | PyBool b => Some (if b then 1%Q else 0%Q)
  | PyInt n => Some (inject_Z n)
  | PyFloat x => Some x
  | _ => None
  end.

(** [lo <= v <= hi] for [int] bounds: the first comparison raises
    [TypeError] on a value that is not a number. *)
Definition in_range (lo hi : Z) (v : pyobj) : pyexn + (bool * Q) :=
  match number_of v with
  | Some x => inr (Qle_bool (inject_Z lo) x && Qle_bool x (inject_Z hi), x)
  | None =>
      inl (TypeError ("'<=' not supported between instances of 'int' and '"
                      +:+ type_name v +:+ "'"))
  end.

(** Lines 155-162 of [predict_measurements] on the values that the handler
    passes: the four checks in order, returning the typed inputs. *)
Definition validate_request (gender height_cm weight_kg apparel_type : pyobj)
    : pyexn + (Z * Q * Q * string) :=
  match
    match number_of gender with
    | Some x => if Qeq_bool x 0 then Some 0 else if Qeq_bool x 1 then Some 1 else None
    | None => None
    end
  with
  | None => inl (Estimator (ValueError "Gender must be 0 (male) or 1 (female)."))
  | Some g =>
      match in_range 100 250 height_cm with
      | inl e => inl e
      | inr (false, _) =>
          inl (Estimator (ValueError "Height must be between 100-250 cm."))
      | inr (true, h) =>
          match in_range 30 300 weight_kg with
          | inl e => inl e
          | inr (false, _) =>
              inl (Estimator (ValueError "Weight must be between 30-300 kg."))
          | inr (true, w) =>
              match apparel_type with
              | PyStr a =>
                  if existsb (String.eqb a) ["tshirt"; "pants"; "all"]
                  then inr (g, h, w, a)
                  else inl (Estimator (ValueError
                         "Apparel type must be 'tshirt', 'pants', or 'all'."))
              | _ => inl (Estimator (ValueError
                         "Apparel type must be 'tshirt', 'pants', or 'all'."))
              end
          end
      end
  end.

(** [predict_measurements] as the handler calls it: a request that fails a
    check is logged and raises inside the [try] block; one that passes
    runs the estimator on the typed inputs. *)
Definition predict_measurements_request {image}
    (_process_image : string -> result image)
    (model_predict : image -> image -> Z * Q * Q -> result (list (list Q)))
    (front_img_path side_img_path : string)
    (gender height_cm weight_kg apparel_type : pyobj)
    : list event * (pyexn + gmap string pyvalue) :=
  match validate_request gender height_cm weight_kg apparel_type with
  | inl e => ([EvLogError ("Prediction failed: " +:+ pyexn_str e)], inl e)
  | inr (g, h, w, a) =>
      let (trace, r) :=
        predict_measurements _process_image model_predict
          front_img_path side_img_path g h w a in
      (trace, match r with
              | Ok results => inr results
              | Raise e => inl (Estimator e)
              end)
  end.

(** An uploaded file: its declared content type and its content. *)
Record UploadFile (file_obj : Type) : Type := {
  content_type : option string;
  file : file_obj
}.
Arguments content_type {file_obj} _.
Arguments file {file_obj} _.

(** [content_type not in ["image/jpeg", "image/png"]] *)
Definition not_jpeg_or_png (content_type : option string) : bool :=
  match content_type with
  | Some t => negb (existsb (String.eqb t) ["image/jpeg"; "image/png"])
  | None => true
  end.

(** The dictionary that the handler returns. *)
Inductive response : Type :=
  | RError (error : string)
  | RResults (results : gmap string pyvalue).

(** What the handler does to the outside world, in order: a temporary file
    written and closed, a file removed, an effect of the estimator. *)
Inductive hevent : Type :=
  | HTempFile (path : string)
  | HRemove (path : string)
  | HPredictor (ev : event).

Section Handler.

(** The capabilities: the JSON parser ([None] for [JSONDecodeError]), the
    block that copies an upload into a new temporary file and gives its
    name, [os.remove], and the two capabilities of the predictor. *)
Context {image file_obj : Type}.
Variable json_loads : string -> option pyjson.
Variable save_temp : file_obj -> result string.
Variable os_remove : string -> result unit.
Variable _process_image : string -> result image.
Variable model_predict : image -> image -> Z * Q * Q -> result (list (list Q)).

Definition predict (front_image side_image : UploadFile file_obj)
    (input_data : string) : list hevent * response :=
  match json_loads input_data with
  | None => ([], RError "Invalid JSON format in input_data")
  | Some input_dict =>
      if not_jpeg_or_png (content_type front_image) then
        ([], RError "Front image must be a JPEG or PNG file")
      else if not_jpeg_or_png (content_type side_image) then
        ([], RError "Side image must be a JPEG or PNG file")
      else
        match save_temp (file front_image) with
        | Raise e => ([], RError (exn_str e))
        | Ok front_temp_path =>
            match save_temp (file side_image) with
            | Raise e => ([HTempFile front_temp_path], RError (exn_str e))
            | Ok side_temp_path =>
                let temps :=
                  [HTempFile front_temp_path; HTempFile side_temp_path] in
                match input_dict with
                | JNotObject tn =>
                    (temps,
                     RError (pyexn_str (AttributeError
                       ("'" +:+ tn +:+ "' object has no attribute 'get'"))))
                | JObject d =>
                    let (trace, r) :=
                      predict_measurements_request _process_image model_predict
                        front_temp_path side_temp_path
                        (dict_get d "gender") (dict_get d "height_cm")
                        (dict_get d "weight_kg") (dict_get d "apparel_type") in
                    let ran := (temps ++ map HPredictor trace)%list in
                    match r with
                    | inl e => (ran, RError (pyexn_str e))
                    | inr results =>
                        match os_remove front_temp_path with
                        | Raise e => (ran, RError (exn_str e))
                        | Ok _ =>
                            match os_remove side_temp_path with
                            | Raise e =>
                                ((ran ++ [HRemove front_temp_path])%list,
                                 RError (exn_str e))
                            | Ok _ =>
                                ((ran ++ [HRemove front_temp_path;
                                          HRemove side_temp_path])%list,
                                 RResults results)
                            end
                        end
                    end
                end
            end
        end
  end.

End Handler.

(** Stand-ins for the handler's capabilities. *)
Definition stub_json_loads (input_data : string) : option pyjson :=
  if String.eqb input_data "{}" then Some (JObject ∅)
  else if String.eqb input_data "[]" then Some (JNotObject "list")
  else if String.eqb input_data "ok" then
    Some (JObject (list_to_map
      [ ("gender", PyInt 0); ("height_cm", PyInt 185);
        ("weight_kg", PyFloat 70.5); ("apparel_type", PyStr "tshirt") ]))
  else None.

Definition stub_save_temp (f : string) : result string :=
  Ok ("/tmp/" +:+ f +:+ ".png").

Definition stub_os_remove (path : string) : result unit := Ok tt.

Definition png (name : string) : UploadFile string :=
  {| content_type := Some "image/png"; file := name |}.

(** ** Comparisons *)

Lemma Qle_int_iff (x : Q) (n : Z) : Qle_int x n = true <-> (x <= inject_Z n)%Q.
Proof. unfold Qle_int. apply Qle_bool_iff. Qed.

Lemma Qgtb_iff (x y : Q) : Qgtb x y = true <-> (y < x)%Q.
Proof.
  unfold Qgtb. rewrite negb_true_iff, <- not_true_iff_false, Qle_bool_iff.
  split; [apply Qnot_le_lt | apply Qlt_not_le].
Qed.

Lemma Qgtb_false_iff (x y : Q) : Qgtb x y = false <-> (x <= y)%Q.
Proof.
  unfold Qgtb. rewrite negb_false_iff. apply Qle_bool_iff.
Qed.

Lemma fits_iff {L} (a b : Q) (row : Z * Z * L) :
  Qle_int a row.1.1 && Qle_int b row.1.2 = true <-> fits a b row.
Proof.
  unfold fits. rewrite andb_true_iff, !Qle_int_iff. tauto.
Qed.

(** ** The chart scan *)

Lemma next_fit_cons {L} (row : Z * Z * L) rest a b d :
  next_fit (row :: rest) a b d =
  if Qle_int a row.1.1 && Qle_int b row.1.2 then row.2 else next_fit rest a b d.
Proof. destruct row as [[max_a max_b] size]. reflexivity. Qed.

Lemma next_fit_first {L} (chart pre post : list (Z * Z * L)) row a b d :
  chart = (pre ++ row :: post)%list ->
  Forall (fun r => ~ fits a b r) pre ->
  fits a b row ->
  next_fit chart a b d = row.2.
Proof.
  intros -> Hpre Hrow. induction Hpre as [|r pre Hr _ IH].
  - rewrite app_nil_l, next_fit_cons.
    apply fits_iff in Hrow. now rewrite Hrow.
  - rewrite <- app_comm_cons, next_fit_cons.
    destruct (Qle_int a r.1.1 && Qle_int b r.1.2) eqn:E; [|exact IH].
    apply fits_iff in E. contradiction.
Qed.

Lemma next_fit_none {L} (chart : list (Z * Z * L)) a b d :
  Forall (fun r => ~ fits a b r) chart ->
  next_fit chart a b d = d.
Proof.
  induction 1 as [|r chart Hr _ IH]; [reflexivity|].
  rewrite next_fit_cons.
  destruct (Qle_int a r.1.1 && Qle_int b r.1.2) eqn:E; [|exact IH].
  apply fits_iff in E. contradiction.
Qed.

(** ** Unfolding the two classification functions *)

Lemma SIZE_CHARTS_lookup (gender : Z) :
  getitem SIZE_CHARTS (gender_str gender) = Ok (charts_of gender).
Proof.
  unfold gender_str, charts_of. destruct (gender =? 0); vm_compute; reflexivity.
Qed.

Lemma getitem_Some {V} (d : gmap string V) k v :
  d !! k = Some v -> getitem d k = Ok v.
Proof. unfold getitem. now intros ->. Qed.

Lemma calculate_tshirt_size_eq gender (m : gmap string Q) weight chest shoulder height :
  m !! "chest" = Some chest ->
  m !! "shoulder-breadth" = Some shoulder ->
  m !! "height" = Some height ->
  calculate_tshirt_size gender m weight =
  Ok (tall_prefix height
        (weight_override gender weight
           (next_fit (tshirt (charts_of gender)) chest shoulder "XXXL"))).
Proof.
  intros Hc Hs Hh. unfold calculate_tshirt_size.
  rewrite SIZE_CHARTS_lookup. cbn [rbind].
  rewrite (getitem_Some _ _ _ Hc). cbn [rbind].
  rewrite (getitem_Some _ _ _ Hs). cbn [rbind].
  rewrite (getitem_Some _ _ _ Hh). reflexivity.
Qed.

Lemma getlast_pants gender :
  getlast (pants (charts_of gender)) =
  Ok (if gender =? 0 then (107, 132, 42) else (97, 122, 38)).
Proof. unfold charts_of. destruct (gender =? 0); reflexivity. Qed.

Lemma last_size_pants gender :
  last_size (pants (charts_of gender)) = if gender =? 0 then 42 else 38.
Proof. unfold charts_of. destruct (gender =? 0); reflexivity. Qed.

Lemma calculate_pants_size_eq gender (m : gmap string Q) weight waist hip height :
  m !! "waist" = Some waist ->
  m !! "hip" = Some hip ->
  m !! "height" = Some height ->
  calculate_pants_size gender m weight =
  Ok (height_adjust gender height
        (next_fit (pants (charts_of gender)) waist hip
           (last_size (pants (charts_of gender))))).
Proof.
  intros Hw Hp Hh. unfold calculate_pants_size.
  rewrite SIZE_CHARTS_lookup. cbn [rbind].
  rewrite (getitem_Some _ _ _ Hw). cbn [rbind].
  rewrite (getitem_Some _ _ _ Hp). cbn [rbind].
  rewrite getlast_pants, last_size_pants. cbn [rbind].
  rewrite (getitem_Some _ _ _ Hh).
  destruct (gender =? 0); reflexivity.
Qed.

Lemma weight_override_on gender weight base :
  overweight gender weight -> weight_override gender weight base = "XXL".
Proof.
  unfold weight_override.
  intros [[Hw ->]|[Hw ->]]; apply Qgtb_iff in Hw; rewrite Hw; cbn.
  - reflexivity.
  - now rewrite orb_true_r.
Qed.

Lemma not_fits_iff {L} (a b : Q) (row : Z * Z * L) :
  Qle_int a row.1.1 && Qle_int b row.1.2 = false <-> ~ fits a b row.
Proof. rewrite <- fits_iff. symmetry. apply not_true_iff_false. Qed.

(** ** T-shirt sizing *)

(** C1.  The t-shirt label comes from a scan of the gender's chart in
    order: the label of the first row whose two bounds are both at least
    the subject's chest and shoulder breadth, and "XXXL" when no row
    admits the subject; the weight override and the tall prefix are then
    applied to that label. *)
Theorem tshirt_size_first_fit gender (m : gmap string Q) weight chest shoulder height :
  m !! "chest" = Some chest ->
  m !! "shoulder-breadth" = Some shoulder ->
  m !! "height" = Some height ->
  (forall pre row post,
      tshirt (charts_of gender) = (pre ++ row :: post)%list ->
      Forall (fun r => ~ fits chest shoulder r) pre ->
      fits chest shoulder row ->
      calculate_tshirt_size gender m weight =
      Ok (tall_prefix height (weight_override gender weight row.2))) /\
  (Forall (fun r => ~ fits chest shoulder r) (tshirt (charts_of gender)) ->
   calculate_tshirt_size gender m weight =
   Ok (tall_prefix height (weight_override gender weight "XXXL"))).
Proof.
  intros Hc Hs Hh.
  rewrite (calculate_tshirt_size_eq _ _ _ _ _ _ Hc Hs Hh). split.
  - intros pre row post Hchart Hpre Hrow.
    now rewrite (next_fit_first _ _ _ _ _ _ _ Hchart Hpre Hrow).
  - intros Hnone. now rewrite next_fit_none.
Qed.

(** A chest that fits "S" with shoulders that only fit "L" gives "L": one
    bound alone does not select a row. *)
Example tshirt_both_bounds :
  calculate_tshirt_size 0 (subject 90 46 170 80 100) 70 = Ok "L".
Proof. vm_compute. reflexivity. Qed.

Lemma tshirt_size_first_fit_witness :
  let m := subject 90 46 170 80 100 in
  (m !! "chest" = Some 90%Q /\ m !! "shoulder-breadth" = Some 46%Q /\
   m !! "height" = Some 170%Q) /\
  calculate_tshirt_size 0 m 70 = Ok "L".
Proof.
  intros m. split; [repeat split; vm_compute; reflexivity|].
  refine (proj1 (tshirt_size_first_fit 0 m 70 90 46 170 _ _ _)
            [(97, 42, "S"); (104, 45, "M")] (112, 48, "L")
            [(120, 51, "XL"); (128, 54, "XXL"); (136, 57, "XXXL")] _ _ _);
    try (vm_compute; reflexivity).
  - repeat constructor; apply not_fits_iff; reflexivity.
  - apply fits_iff; reflexivity.
Defined.

(** C2.  When weight > 95 for a male or weight > 80 for a female, the base
    label is "XXL" whatever the chart scan selected, so the result is
    "XXL", or "Tall XXL" when the measured height is above 180. *)
Theorem tshirt_weight_override gender (m : gmap string Q) weight chest shoulder height :
  m !! "chest" = Some chest ->
  m !! "shoulder-breadth" = Some shoulder ->
  m !! "height" = Some height ->
  overweight gender weight ->
  calculate_tshirt_size gender m weight =
  Ok (if Qgtb height 180 then "Tall XXL" else "XXL").
Proof.
  intros Hc Hs Hh Hw.
  rewrite (calculate_tshirt_size_eq _ _ _ _ _ _ Hc Hs Hh).
  rewrite (weight_override_on _ _ _ Hw). unfold tall_prefix.
  destruct (Qgtb height 180); reflexivity.
Qed.

(** The spec's example: male, 100 kg, chest 90 (tier "S"), height 170. *)
Lemma tshirt_weight_override_witness :
  let m := subject 90 40 170 80 100 in
  (m !! "chest" = Some 90%Q /\ m !! "shoulder-breadth" = Some 40%Q /\
   m !! "height" = Some 170%Q /\ overweight 0 100) /\
  calculate_tshirt_size 0 m 100 = Ok "XXL".
Proof.
  intros m.
  assert (Hw : overweight 0 100) by (left; split; reflexivity).
  split; [repeat split; try (vm_compute; reflexivity); exact Hw|].
  apply (tshirt_weight_override 0 m 100 90 40 170);
    try (vm_compute; reflexivity); exact Hw.
Defined.

(** C3.  The prefix "Tall " is put in front of the label exactly when the
    measured height is above 180, and it is put in front of the label that
    the weight override leaves: an overridden label becomes "Tall XXL". *)
Theorem tshirt_tall_prefix gender (m : gmap string Q) weight chest shoulder height :
  m !! "chest" = Some chest ->
  m !! "shoulder-breadth" = Some shoulder ->
  m !! "height" = Some height ->
  let label :=
    weight_override gender weight
      (next_fit (tshirt (charts_of gender)) chest shoulder "XXXL") in
  ((180 < height)%Q ->
   calculate_tshirt_size gender m weight = Ok ("Tall " +:+ label)) /\
  ((height <= 180)%Q ->
   calculate_tshirt_size gender m weight = Ok label) /\
  ((180 < height)%Q -> overweight gender weight ->
   calculate_tshirt_size gender m weight = Ok "Tall XXL").
Proof.
  intros Hc Hs Hh label.
  rewrite (calculate_tshirt_size_eq _ _ _ _ _ _ Hc Hs Hh). fold label.
  unfold tall_prefix. repeat split.
  - intros Ht. apply Qgtb_iff in Ht. now rewrite Ht.
  - intros Ht. apply Qgtb_false_iff in Ht. now rewrite Ht.
  - intros Ht Hw. apply Qgtb_iff in Ht. rewrite Ht. unfold label.
    now rewrite (weight_override_on _ _ _ Hw).
Qed.

(** The spec's example: male, 70 kg, chest 90, shoulder breadth 40,
    height 185. *)
Lemma tshirt_tall_prefix_witness :
  let m := subject 90 40 185 80 100 in
  (m !! "chest" = Some 90%Q /\ m !! "shoulder-breadth" = Some 40%Q /\
   m !! "height" = Some 185%Q /\ (180 < 185)%Q) /\
  calculate_tshirt_size 0 m 70 = Ok "Tall S".
Proof.
  intros m.
  split; [repeat split; vm_compute; reflexivity|].
  refine (proj1 (tshirt_tall_prefix 0 m 70 90 40 185 _ _ _) _);
    vm_compute; reflexivity.
Defined.

(** A heavy and tall subject. *)
Example tshirt_tall_xxl :
  calculate_tshirt_size 0 (subject 90 40 185 80 100) 100 = Ok "Tall XXL" /\
  calculate_tshirt_size 1 (subject 90 40 (18001 # 100) 80 100) 81 = Ok "Tall XXL".
Proof. split; vm_compute; reflexivity. Qed.

(** ** Pants sizing *)

Lemma height_adjust_last gender height :
  height_adjust gender height (if gender =? 0 then 42 else 38) =
  if gender =? 0 then 42 else 38.
Proof.
  unfold height_adjust.
  destruct (gender =? 0), (Qgtb height 180); reflexivity.
Qed.

(** C4.  The pants size comes from a scan of the gender's chart in order:
    the size of the first row whose two bounds are both at least the
    subject's waist and hip (then adjusted for height); when no row admits
    the subject the result is the size of the last row, 42 for a male and
    38 for a female. *)
Theorem pants_size_first_fit gender (m : gmap string Q) weight waist hip height :
  m !! "waist" = Some waist ->
  m !! "hip" = Some hip ->
  m !! "height" = Some height ->
  (forall pre row post,
      pants (charts_of gender) = (pre ++ row :: post)%list ->
      Forall (fun r => ~ fits waist hip r) pre ->
      fits waist hip row ->
      calculate_pants_size gender m weight =
      Ok (height_adjust gender height row.2)) /\
  (Forall (fun r => ~ fits waist hip r) (pants (charts_of gender)) ->
   calculate_pants_size gender m weight =
   Ok (last_size (pants (charts_of gender))) /\
   last_size (pants (charts_of gender)) = if gender =? 0 then 42 else 38).
Proof.
  intros Hw Hp Hh.
  rewrite (calculate_pants_size_eq _ _ _ _ _ _ Hw Hp Hh). split.
  - intros pre row post Hchart Hpre Hrow.
    now rewrite (next_fit_first _ _ _ _ _ _ _ Hchart Hpre Hrow).
  - intros Hnone. rewrite next_fit_none by exact Hnone.
    rewrite last_size_pants, height_adjust_last. split; reflexivity.
Qed.

(** Waist and hip above every row, for a tall male. *)
Lemma pants_size_first_fit_witness :
  let m := subject 90 40 190 110 140 in
  (m !! "waist" = Some 110%Q /\ m !! "hip" = Some 140%Q /\
   m !! "height" = Some 190%Q /\
   Forall (fun r => ~ fits 110 140 r) (pants (charts_of 0))) /\
  calculate_pants_size 0 m 70 = Ok 42.
Proof.
  intros m.
  assert (Hnone : Forall (fun r => ~ fits 110 140 r) (pants (charts_of 0)))
    by (repeat constructor; apply not_fits_iff; reflexivity).
  split; [repeat split; try (vm_compute; reflexivity); exact Hnone|].
  refine (proj1 (proj2 (pants_size_first_fit 0 m 70 110 140 190 _ _ _) Hnone));
    vm_compute; reflexivity.
Defined.

Example pants_default_female :
  calculate_pants_size 1 (subject 90 40 190 110 140) 70 = Ok 38.
Proof. vm_compute. reflexivity. Qed.

(** A hip that needs a larger row than the waist does. *)
Example pants_both_bounds :
  calculate_pants_size 0 (subject 90 40 170 75 110) 70 = Ok 34.
Proof. vm_compute. reflexivity. Qed.

(** C5.  For a male whose measured height is above 180 the chart size is
    raised by 2 when it is below 40 and left as it is from 40 on; for any
    other gender, and for a measured height of at most 180, the chart size
    is returned unchanged. *)
Theorem pants_height_adjustment gender (m : gmap string Q) weight waist hip height :
  m !! "waist" = Some waist ->
  m !! "hip" = Some hip ->
  m !! "height" = Some height ->
  let base :=
    next_fit (pants (charts_of gender)) waist hip
      (last_size (pants (charts_of gender))) in
  (gender = 0 -> (180 < height)%Q -> base < 40 ->
   calculate_pants_size gender m weight = Ok (base + 2)) /\
  (gender = 0 -> (180 < height)%Q -> 40 <= base ->
   calculate_pants_size gender m weight = Ok base) /\
  (gender <> 0 -> calculate_pants_size gender m weight = Ok base) /\
  ((height <= 180)%Q -> calculate_pants_size gender m weight = Ok base).
Proof.
  intros Hw Hp Hh base.
  rewrite (calculate_pants_size_eq _ _ _ _ _ _ Hw Hp Hh). fold base.
  clearbody base. unfold height_adjust. repeat split.
  - intros -> Ht Hb. apply Qgtb_iff in Ht. rewrite Ht. cbn.
    apply Z.ltb_lt in Hb. now rewrite Hb.
  - intros -> Ht Hb. apply Qgtb_iff in Ht. rewrite Ht. cbn.
    apply Z.ltb_ge in Hb. rewrite Hb. now rewrite Z.add_0_r.
  - intros Hg. apply Z.eqb_neq in Hg. rewrite Hg. now rewrite andb_false_r.
  - intros Ht. apply Qgtb_false_iff in Ht. now rewrite Ht.
Qed.

(** The spec's example: male, height 190, chart size 38. *)
Lemma pants_height_adjustment_witness :
  let m := subject 90 40 190 95 120 in
  (m !! "waist" = Some 95%Q /\ m !! "hip" = Some 120%Q /\
   m !! "height" = Some 190%Q /\ (180 < 190)%Q /\
   next_fit (pants (charts_of 0)) 95 120 (last_size (pants (charts_of 0))) = 38) /\
  calculate_pants_size 0 m 70 = Ok 40.
Proof.
  intros m.
  split; [repeat split; vm_compute; reflexivity|].
  refine (proj1 (pants_height_adjustment 0 m 70 95 120 190 _ _ _) _ _ _);
    vm_compute; reflexivity.
Defined.

(** The spec's example: male, height 190, chart size 40. *)
Example pants_ceiling :
  next_fit (pants (charts_of 0)) 100 125 (last_size (pants (charts_of 0))) = 40 /\
  calculate_pants_size 0 (subject 90 40 190 100 125) 70 = Ok 40 /\
  calculate_pants_size 1 (subject 90 40 190 95 120) 70 = Ok 38.
Proof. repeat split; vm_compute; reflexivity. Qed.

(** ** Totality of the classifier *)

Lemma well_formed_lookup (m : gmap string Q) k :
  well_formed m -> k ∈ measurement_names -> is_Some (m !! k).
Proof.
  unfold well_formed. intros Hm Hk.
  apply elem_of_dom. rewrite Hm. now apply elem_of_list_to_set.
Qed.

Lemma measurement_names_eq :
  measurement_names =
  [ "ankle"; "arm-length"; "bicep"; "calf"; "chest"; "forearm"; "height";
    "hip"; "leg-length"; "shoulder-breadth"; "shoulder-to-crotch"; "thigh";
    "waist"; "wrist" ].
Proof. reflexivity. Qed.

Lemma well_formed_classifier_keys (m : gmap string Q) :
  well_formed m ->
  is_Some (m !! "chest") /\ is_Some (m !! "shoulder-breadth") /\
  is_Some (m !! "height") /\ is_Some (m !! "waist") /\ is_Some (m !! "hip").
Proof.
  intros Hm.
  repeat split; apply (well_formed_lookup _ _ Hm);
    rewrite measurement_names_eq; repeat (first [left | right]).
Qed.

(** C9.  On a measurement set that holds the 14 keys, for every gender and
    weight, [calculate_tshirt_size] returns a label and
    [calculate_pants_size] returns an integer: no subscript fails. *)
Theorem classification_never_raises gender (m : gmap string Q) weight :
  well_formed m ->
  (exists label, calculate_tshirt_size gender m weight = Ok label) /\
  (exists size, calculate_pants_size gender m weight = Ok size).
Proof.
  intros Hm.
  destruct (well_formed_classifier_keys m Hm)
    as ([c Hc] & [s Hs] & [h Hh] & [w Hw] & [p Hp]).
  split; eexists.
  - apply (calculate_tshirt_size_eq _ _ _ _ _ _ Hc Hs Hh).
  - apply (calculate_pants_size_eq _ _ _ _ _ _ Hw Hp Hh).
Qed.

Lemma subject_well_formed chest shoulder height waist hip :
  well_formed (subject chest shoulder height waist hip).
Proof.
  unfold well_formed, subject. rewrite dom_list_to_map_L. reflexivity.
Qed.

Lemma classification_never_raises_witness :
  let m := subject 90 40 185 95 120 in
  well_formed m /\
  (exists label, calculate_tshirt_size 0 m 70 = Ok label) /\
  (exists size, calculate_pants_size 0 m 70 = Ok size).
Proof.
  intros m.
  assert (Hm : well_formed m) by apply subject_well_formed.
  split; [exact Hm|]. exact (classification_never_raises 0 m 70 Hm).
Defined.

(** ** Monotonicity of the t-shirt tier *)

Lemma fit_pos_mono {L} (chart : list (Z * Z * L)) a1 b1 a2 b2 :
  (a1 <= a2)%Q -> (b1 <= b2)%Q ->
  (fit_pos chart a1 b1 <= fit_pos chart a2 b2)%nat.
Proof.
  intros Ha Hb. induction chart as [|[[max_a max_b] size] rest IH]; [reflexivity|].
  cbn [fit_pos].
  destruct (Qle_int a2 max_a && Qle_int b2 max_b) eqn:E2.
  - apply andb_true_iff in E2 as [E2a E2b].
    apply Qle_int_iff in E2a, E2b.
    assert (E1 : Qle_int a1 max_a && Qle_int b1 max_b = true).
    { apply andb_true_iff. split; apply Qle_int_iff.
      - now apply Qle_trans with a2.
      - now apply Qle_trans with b2. }
    rewrite E1. reflexivity.
  - destruct (Qle_int a1 max_a && Qle_int b1 max_b); lia.
Qed.

Lemma tier_index_next_fit gender a b :
  let chart := tshirt (charts_of gender) in
  tier_index chart (next_fit chart a b "XXXL") = Nat.min (fit_pos chart a b) 5.
Proof.
  unfold charts_of.
  destruct (gender =? 0); cbn [tshirt male_chart female_chart next_fit fit_pos];
    repeat (match goal with
            | |- context [Qle_int ?x ?n && Qle_int ?y ?k] =>
                destruct (Qle_int x n && Qle_int y k); [reflexivity|]
            end);
    reflexivity.
Qed.

Lemma tier_index_weight_override gender weight chart l1 l2 :
  (tier_index chart l1 <= tier_index chart l2)%nat ->
  (tier_index chart (weight_override gender weight l1) <=
   tier_index chart (weight_override gender weight l2))%nat.
Proof.
  unfold weight_override.
  destruct (Qgtb weight 95 && (gender =? 0) || Qgtb weight 80 && (gender =? 1));
    [reflexivity | tauto].
Qed.

(** C8.  Two measurement sets that differ only in that chest and shoulder
    breadth are at least as large in the second, with the same gender and
    weight: the index in the chart of the tier selected for the second is
    at least the index of the tier selected for the first, before and after
    the weight override; the default "XXXL" has the largest index. *)
Theorem tshirt_tier_monotonic gender (m1 m2 : gmap string Q) weight c1 s1 c2 s2 height :
  m1 !! "chest" = Some c1 ->
  m1 !! "shoulder-breadth" = Some s1 ->
  m1 !! "height" = Some height ->
  m2 = <["chest" := c2]> (<["shoulder-breadth" := s2]> m1) ->
  (c1 <= c2)%Q -> (s1 <= s2)%Q ->
  let chart := tshirt (charts_of gender) in
  let tier1 := next_fit chart c1 s1 "XXXL" in
  let tier2 := next_fit chart c2 s2 "XXXL" in
  calculate_tshirt_size gender m1 weight =
    Ok (tall_prefix height (weight_override gender weight tier1)) /\
  calculate_tshirt_size gender m2 weight =
    Ok (tall_prefix height (weight_override gender weight tier2)) /\
  (tier_index chart tier1 <= tier_index chart tier2)%nat /\
  (tier_index chart (weight_override gender weight tier1) <=
   tier_index chart (weight_override gender weight tier2))%nat /\
  tier_index chart "XXXL" = 5%nat /\ (tier_index chart tier2 <= 5)%nat.
Proof.
  intros Hc Hs Hh -> Hcle Hsle chart tier1 tier2.
  assert (Hidx : (tier_index chart tier1 <= tier_index chart tier2)%nat).
  { unfold tier1, tier2, chart. rewrite !tier_index_next_fit.
    pose proof (fit_pos_mono (tshirt (charts_of gender)) c1 s1 c2 s2 Hcle Hsle).
    lia. }
  repeat split.
  - apply (calculate_tshirt_size_eq _ _ _ _ _ _ Hc Hs Hh).
  - apply calculate_tshirt_size_eq.
    + apply lookup_insert_eq.
    + rewrite lookup_insert_ne by discriminate. apply lookup_insert_eq.
    + rewrite !lookup_insert_ne by discriminate. exact Hh.
  - exact Hidx.
  - now apply tier_index_weight_override.
  - unfold chart, charts_of. destruct (gender =? 0); reflexivity.
  - unfold tier2, chart. rewrite tier_index_next_fit. lia.
Qed.

Lemma tshirt_tier_monotonic_witness :
  let m1 := subject 90 40 170 80 100 in
  let m2 := <["chest" := 110%Q]> (<["shoulder-breadth" := 46%Q]> m1) in
  (m1 !! "chest" = Some 90%Q /\ m1 !! "shoulder-breadth" = Some 40%Q /\
   m1 !! "height" = Some 170%Q /\ (90 <= 110)%Q /\ (40 <= 46)%Q) /\
  calculate_tshirt_size 0 m1 70 = Ok "S" /\
  calculate_tshirt_size 0 m2 70 = Ok "L" /\
  (tier_index (tshirt (charts_of 0)) "S" <= tier_index (tshirt (charts_of 0)) "L")%nat.
Proof.
  intros m1 m2.
  split; [repeat split; vm_compute; first [reflexivity | discriminate]|].
  assert (H1 : m1 !! "chest" = Some 90%Q) by (vm_compute; reflexivity).
  assert (H2 : m1 !! "shoulder-breadth" = Some 40%Q) by (vm_compute; reflexivity).
  assert (H3 : m1 !! "height" = Some 170%Q) by (vm_compute; reflexivity).
  assert (H4 : (90 <= 110)%Q) by (vm_compute; discriminate).
  assert (H5 : (40 <= 46)%Q) by (vm_compute; discriminate).
  destruct (tshirt_tier_monotonic 0 m1 m2 70 90 40 110 46 170 H1 H2 H3 eq_refl H4 H5)
    as (R1 & R2 & R3 & _).
  split; [exact R1 | split; [exact R2 | exact R3]].
Defined.

(** ** Input validation *)

Lemma valid_gender_iff gender :
  (gender =? 0) || (gender =? 1) = true <-> valid_gender gender.
Proof. unfold valid_gender. rewrite orb_true_iff, !Z.eqb_eq. tauto. Qed.

Lemma valid_height_iff h :
  Qle_bool 100 h && Qle_bool h 250 = true <-> valid_height h.
Proof. unfold valid_height. rewrite andb_true_iff, !Qle_bool_iff. tauto. Qed.

Lemma valid_weight_iff w :
  Qle_bool 30 w && Qle_bool w 300 = true <-> valid_weight w.
Proof. unfold valid_weight. rewrite andb_true_iff, !Qle_bool_iff. tauto. Qed.

Lemma valid_apparel_iff a :
  existsb (String.eqb a) ["tshirt"; "pants"; "all"] = true <-> valid_apparel a.
Proof.
  unfold valid_apparel. cbn [existsb].
  rewrite orb_false_r, !orb_true_iff, !String.eqb_eq. tauto.
Qed.

Lemma validate_inputs_ok gender h w a :
  valid_inputs gender h w a -> validate_inputs gender h w a = Ok tt.
Proof.
  intros (Hg & Hh & Hw & Ha). unfold validate_inputs.
  apply valid_gender_iff in Hg. apply valid_height_iff in Hh.
  apply valid_weight_iff in Hw. apply valid_apparel_iff in Ha.
  rewrite Hg, Hh, Hw, Ha. reflexivity.
Qed.

Lemma validate_inputs_raise gender h w a :
  ~ valid_inputs gender h w a ->
  (~ valid_gender gender /\
   validate_inputs gender h w a =
   Raise (ValueError "Gender must be 0 (male) or 1 (female).")) \/
  (~ valid_height h /\
   validate_inputs gender h w a =
   Raise (ValueError "Height must be between 100-250 cm.")) \/
  (~ valid_weight w /\
   validate_inputs gender h w a =
   Raise (ValueError "Weight must be between 30-300 kg.")) \/
  (~ valid_apparel a /\
   validate_inputs gender h w a =
   Raise (ValueError "Apparel type must be 'tshirt', 'pants', or 'all'.")).
Proof.
  intros Hn. unfold validate_inputs.
  destruct ((gender =? 0) || (gender =? 1)) eqn:Eg; cbn [negb].
  2:{ left. split; [|reflexivity].
      rewrite <- valid_gender_iff. congruence. }
  destruct (Qle_bool 100 h && Qle_bool h 250) eqn:Eh; cbn [negb].
  2:{ right; left. split; [|reflexivity].
      rewrite <- valid_height_iff. congruence. }
  destruct (Qle_bool 30 w && Qle_bool w 300) eqn:Ew; cbn [negb].
  2:{ right; right; left. split; [|reflexivity].
      rewrite <- valid_weight_iff. congruence. }
  destruct (existsb (String.eqb a) ["tshirt"; "pants"; "all"]) eqn:Ea; cbn [negb].
  2:{ right; right; right. split; [|reflexivity].
      rewrite <- valid_apparel_iff. congruence. }
  exfalso. apply Hn.
  apply valid_gender_iff in Eg. apply valid_height_iff in Eh.
  apply valid_weight_iff in Ew. apply valid_apparel_iff in Ea.
  unfold valid_inputs. tauto.
Qed.

Lemma predict_measurements_invalid {image}
    (proc : string -> result image)
    (model : image -> image -> Z * Q * Q -> result (list (list Q)))
    front side gender h w a msg :
  validate_inputs gender h w a = Raise (ValueError msg) ->
  predict_measurements proc model front side gender h w a =
  ([EvLogError ("Prediction failed: " +:+ msg)], Raise (ValueError msg)).
Proof.
  intros Hv. unfold predict_measurements. rewrite Hv. reflexivity.
Qed.

Lemma mbind_lift_ok {A B} (a : A) (k : A -> M B) : mbind (lift (Ok a)) k = k a.
Proof. unfold mbind, lift. destruct (k a). reflexivity. Qed.

Lemma mbind_head {A B} (m : M A) (k : A -> M B) ev t r :
  m = (ev :: t, r) -> exists t' r', mbind m k = (ev :: t', r').
Proof.
  intros ->. unfold mbind. destruct r as [a|e]; [destruct (k a)|];
    eexists _, _; reflexivity.
Qed.

Lemma try_except_head {A} (body : M A) (handler : exn -> M A) ev t r :
  body = (ev :: t, r) -> exists t' r', try_except body handler = (ev :: t', r').
Proof.
  intros ->. unfold try_except. destruct r as [a|e]; [|destruct (handler e)];
    eexists _, _; reflexivity.
Qed.

Lemma process_single_person_head {image} (proc : string -> result image) front side :
  exists t r, process_single_person proc front side = (EvProcessImage front :: t, r).
Proof.
  unfold process_single_person.
  destruct (proc front) as [fa|e]; [destruct (proc side) as [sa|e]|];
    eexists _, _; reflexivity.
Qed.

Lemma predict_measurements_valid {image}
    (proc : string -> result image)
    (model : image -> image -> Z * Q * Q -> result (list (list Q)))
    front side gender h w a :
  validate_inputs gender h w a = Ok tt ->
  exists trace r,
    predict_measurements proc model front side gender h w a =
    (EvProcessImage front :: trace, r).
Proof.
  intros Hv. unfold predict_measurements. rewrite Hv, mbind_lift_ok.
  destruct (process_single_person_head proc front side) as (t & r & Hp).
  match goal with
  | |- context [try_except (mbind _ ?k) _] =>
      destruct (mbind_head _ k _ _ _ Hp) as (t' & r' & Hb)
  end.
  eapply try_except_head. exact Hb.
Qed.

(** X19.  On inputs of the annotated types (an integer gender, a number
    for height and weight, a string apparel type): inputs within
    gender ∈ {0, 1}, 100 <= height_cm <= 250, 30 <= weight_kg <= 300 and
    apparel_type ∈ {tshirt, pants, all} pass validation, and the
    estimator goes on to the front image.  Any other input of these types
    is rejected with a [ValueError] whose message names a field that is
    out of its range and states the range, and nothing but the error log
    happens: no image is processed and the model is not called.  What a
    field of another type does is stated under C6 and X20. *)
Theorem input_validation {image}
    (proc : string -> result image)
    (model : image -> image -> Z * Q * Q -> result (list (list Q)))
    front side gender h w a :
  (valid_inputs gender h w a ->
   validate_inputs gender h w a = Ok tt /\
   exists trace r,
     predict_measurements proc model front side gender h w a =
     (EvProcessImage front :: trace, r)) /\
  (~ valid_inputs gender h w a ->
   exists msg,
     predict_measurements proc model front side gender h w a =
     ([EvLogError ("Prediction failed: " +:+ msg)], Raise (ValueError msg)) /\
     Forall (fun ev => ~ is_estimation ev)
       (predict_measurements proc model front side gender h w a).1 /\
     ((~ valid_gender gender /\
       msg = "Gender must be 0 (male) or 1 (female).") \/
      (~ valid_height h /\ msg = "Height must be between 100-250 cm.") \/
      (~ valid_weight w /\ msg = "Weight must be between 30-300 kg.") \/
      (~ valid_apparel a /\
       msg = "Apparel type must be 'tshirt', 'pants', or 'all'."))).
Proof.
  split.
  - intros Hv. apply validate_inputs_ok in Hv. split; [exact Hv|].
    now apply predict_measurements_valid.
  - intros Hn.
    assert (Hr : forall msg,
               validate_inputs gender h w a = Raise (ValueError msg) ->
               predict_measurements proc model front side gender h w a =
               ([EvLogError ("Prediction failed: " +:+ msg)], Raise (ValueError msg)) /\
               Forall (fun ev => ~ is_estimation ev)
                 (predict_measurements proc model front side gender h w a).1).
    { intros msg Hv.
      rewrite (predict_measurements_invalid proc model front side _ _ _ _ _ Hv).
      split; [reflexivity|]. repeat constructor. intros []. }
    destruct (validate_inputs_raise gender h w a Hn)
      as [[Hf Hv]|[[Hf Hv]|[[Hf Hv]|[Hf Hv]]]];
      eexists; (split; [apply (Hr _ Hv)|split; [apply (Hr _ Hv)|]]); tauto.
Qed.

(** A height of 85 cm is rejected before anything runs; 185 cm is accepted. *)
Lemma input_validation_witness :
  (valid_inputs 0 185 70 "all" /\ ~ valid_inputs 0 85 70 "tshirt") /\
  validate_inputs 0 185 70 "all" = Ok tt /\
  exists msg,
    predict_measurements stub_process_image stub_model "front.png" "side.png"
      0 85 70 "tshirt" =
    ([EvLogError ("Prediction failed: " +:+ msg)], Raise (ValueError msg)).
Proof.
  assert (Hv : valid_inputs 0 185 70 "all").
  { repeat split; try (vm_compute; discriminate); [now left | now right; right]. }
  assert (Hn : ~ valid_inputs 0 85 70 "tshirt").
  { intros (_ & [Hh _] & _). vm_compute in Hh. apply Hh. reflexivity. }
  split; [split; assumption|].
  split.
  - exact (proj1 (proj1 (input_validation stub_process_image stub_model
                           "front.png" "side.png" 0 185 70 "all") Hv)).
  - destruct (proj2 (input_validation stub_process_image stub_model
                       "front.png" "side.png" 0 85 70 "tshirt") Hn)
      as (msg & Hrun & _).
    exists msg. exact Hrun.
Defined.

(** ** The measurement dictionary *)

Lemma round_half_even_close (q : Q) :
  (Qabs (inject_Z (round_half_even q) - q) <= 1 # 2)%Q.
Proof.
  unfold round_half_even.
  pose proof (Qfloor_le q) as Hlo. pose proof (Qlt_floor q) as Hhi.
  rewrite inject_Z_plus in Hhi. change (inject_Z 1) with 1%Q in Hhi.
  apply Qabs_Qle_condition.
  destruct (Qcompare (q - inject_Z (Qfloor q)) (1 # 2)) eqn:E.
  - apply Qeq_alt in E.
    destruct (Z.even (Qfloor q));
      [|rewrite inject_Z_plus; change (inject_Z 1) with 1%Q]; split; lra.
  - apply Qlt_alt in E. split; lra.
  - apply Qgt_alt in E. rewrite inject_Z_plus.
    change (inject_Z 1) with 1%Q. split; lra.
Qed.

Lemma round2_hundredths (x : Q) : exists k : Z, round2 x = k # 100.
Proof. eexists. reflexivity. Qed.

Lemma round2_close (x : Q) : (Qabs (round2 x - x) <= 1 # 200)%Q.
Proof.
  pose proof (round_half_even_close (x * 100)) as H.
  apply Qabs_Qle_condition in H. apply Qabs_Qle_condition.
  unfold round2. rewrite (Qmake_Qdiv (round_half_even (x * 100)) 100).
  set (k := inject_Z (round_half_even (x * 100))) in *. clearbody k.
  unfold Qdiv. change (/ inject_Z (Z.pos 100))%Q with (1 # 100)%Q.
  split; lra.
Qed.

Lemma dict_of_row_spec items row (acc m : gmap string Q) :
  dict_of_row items row acc = Ok m ->
  dom m = dom acc ∪ list_to_set items.*1 /\
  (forall name, name ∉ items.*1 -> m !! name = acc !! name) /\
  (NoDup items.*1 ->
   forall name idx, (name, idx) ∈ items ->
     exists x, row !! idx = Some x /\ m !! name = Some (round2 x)).
Proof.
  revert acc. induction items as [|[n i] rest IH]; intros acc Hrun.
  - injection Hrun as <-. repeat split.
    + cbn [fmap list_fmap list_to_set]. now rewrite union_empty_r_L.
    + intros _ name idx Hin. inversion Hin.
  - cbn [dict_of_row] in Hrun.
    destruct (row !! i) as [x|] eqn:Hx; [|discriminate].
    destruct (IH _ Hrun) as (Hdom & Hout & Hin).
    repeat split.
    + rewrite Hdom, dom_insert_L. cbn [fmap list_fmap fst list_to_set].
      now rewrite (comm_L (∪) {[n]} (dom acc)), (assoc_L (∪)).
    + intros name Hname. cbn [fmap list_fmap fst] in Hname.
      apply not_elem_of_cons in Hname as [Hne Hrest].
      rewrite (Hout _ Hrest). now apply lookup_insert_ne.
    + intros Hnd name idx Hmem. cbn [fmap list_fmap fst] in Hnd.
      apply NoDup_cons in Hnd as [Hfresh Hnd].
      apply elem_of_cons in Hmem as [Heq|Hmem].
      * injection Heq as -> ->. exists x. split; [exact Hx|].
        rewrite (Hout _ Hfresh). apply lookup_insert_eq.
      * now apply Hin.
Qed.

Lemma dict_of_row_total items row (acc : gmap string Q) :
  (forall name idx, (name, idx) ∈ items -> (idx < length row)%nat) ->
  exists m, dict_of_row items row acc = Ok m.
Proof.
  revert acc. induction items as [|[n i] rest IH]; intros acc Hlen.
  - eexists. reflexivity.
  - cbn [dict_of_row].
    destruct (lookup_lt_is_Some_2 row i) as [x Hx].
    { apply (Hlen n). left. }
    rewrite Hx. apply IH. intros name idx Hmem. apply (Hlen name). now right.
Qed.

Lemma measurement_names_NoDup : NoDup measurement_names.
Proof. apply (bool_decide_unpack _). vm_compute. exact I. Qed.

Lemma measurement_names_size :
  size (list_to_set measurement_names : gset string) = 14%nat.
Proof. rewrite size_list_to_set by apply measurement_names_NoDup. reflexivity. Qed.

Lemma build_measurements_spec prediction (m : gmap string Q) :
  build_measurements prediction = Ok m ->
  exists row,
    prediction !! 0%nat = Some row /\
    well_formed m /\ size m = 14%nat /\
    forall name idx, (name, idx) ∈ MEASUREMENT_INDICES ->
      exists x, row !! idx = Some x /\ m !! name = Some (round2 x).
Proof.
  unfold build_measurements.
  destruct (prediction !! 0%nat) as [row|] eqn:Hrow; [|discriminate].
  intros Hrun. destruct (dict_of_row_spec _ _ _ _ Hrun) as (Hdom & _ & Hin).
  assert (Hwf : well_formed m).
  { unfold well_formed. rewrite Hdom, dom_empty_L. apply union_empty_l_L. }
  exists row. repeat split.
  - exact Hwf.
  - rewrite <- size_dom, Hwf. apply measurement_names_size.
  - apply Hin. apply measurement_names_NoDup.
Qed.

Lemma build_measurements_total row rest :
  (14 <= length row)%nat -> exists m, build_measurements (row :: rest) = Ok m.
Proof.
  intros Hlen. unfold build_measurements. cbn [lookup list_lookup].
  apply dict_of_row_total. intros name idx Hmem.
  enough (idx < 14)%nat by lia.
  unfold MEASUREMENT_INDICES in Hmem.
  repeat (apply elem_of_cons in Hmem as [Heq|Hmem];
          [injection Heq as -> ->; lia|]).
  inversion Hmem.
Qed.

Lemma select_keys_lookup keys (m : gmap string Q) k :
  select_keys keys m !! k = if bool_decide (k ∈ keys) then m !! k else None.
Proof.
  unfold select_keys.
  enough (H : forall acc : gmap string Q,
             foldl (fun acc k =>
                      match m !! k with
                      | Some v => <[k := v]> acc
                      | None => acc
                      end) acc keys !! k =
             match (if bool_decide (k ∈ keys) then m !! k else None) with
             | Some v => Some v
             | None => acc !! k
             end).
  { rewrite H, lookup_empty. now destruct (if bool_decide (k ∈ keys) then _ else _). }
  induction keys as [|k' keys IH]; intros acc; [reflexivity|].
  cbn [foldl]. rewrite IH.
  destruct (decide (k ∈ keys)) as [Hin|Hnin].
  - rewrite !bool_decide_eq_true_2 by (try right; exact Hin).
    destruct (m !! k) eqn:Hk; [reflexivity|].
    destruct (m !! k') eqn:Hk'; [|reflexivity].
    apply lookup_insert_ne. congruence.
  - rewrite (bool_decide_eq_false_2 (k ∈ keys)) by exact Hnin.
    destruct (decide (k = k')) as [->|Hne].
    + rewrite bool_decide_eq_true_2 by left.
      destruct (m !! k') eqn:Hk'; [apply lookup_insert_eq | reflexivity].
    + rewrite bool_decide_eq_false_2
        by (intros [?|?]%elem_of_cons; contradiction).
      destruct (m !! k'); [|reflexivity].
      apply lookup_insert_ne. congruence.
Qed.

(** ** What the estimator returns *)

Lemma mbind_snd {A B} (m : M A) (k : A -> M B) :
  (mbind m k).2 = rbind m.2 (fun a => (k a).2).
Proof.
  destruct m as [t [a|e]]; cbn [mbind rbind snd]; [|reflexivity].
  now destruct (k a).
Qed.

(** The value that [predict_measurements] returns or the exception that it
    raises, stage by stage. *)
Lemma predict_measurements_snd {image}
    (proc : string -> result image)
    (model : image -> image -> Z * Q * Q -> result (list (list Q)))
    front side gender h w a :
  (predict_measurements proc model front side gender h w a).2 =
  (_ <~ validate_inputs gender h w a;
   front_arr <~ proc front;
   side_arr <~ proc side;
   prediction <~ model front_arr side_arr (gender, h, w);
   measurements <~ build_measurements prediction;
   (assemble_result gender w a measurements).2).
Proof.
  unfold predict_measurements, process_single_person.
  destruct (validate_inputs gender h w a) as [[]|e]; [|reflexivity].
  destruct (proc front) as [fa|e]; [|reflexivity].
  destruct (proc side) as [sa|e]; [|reflexivity].
  cbn -[assemble_result build_measurements].
  destruct (model fa sa (gender, h, w)) as [p|e]; [|reflexivity].
  cbn -[assemble_result build_measurements].
  destruct (build_measurements p) as [m|e]; [|reflexivity].
  cbn -[assemble_result build_measurements].
  destruct (assemble_result gender w a m) as [t [r|e]]; reflexivity.
Qed.

Lemma assemble_result_surface gender w a (m : gmap string Q) (res : gmap string pyvalue) :
  (assemble_result gender w a m).2 = Ok res ->
  (a = "all" -> res !! "body_measurements" = Some (VDict m)) /\
  (a = "tshirt" ->
   res !! "upper_body_measurements" =
   Some (VDict (select_keys upper_body_keys m))) /\
  (a = "pants" ->
   res !! "lower_body_measurements" =
   Some (VDict (select_keys lower_body_keys m))).
Proof.
  intros Hres. repeat split; intros ->; unfold assemble_result in Hres;
    cbn [String.eqb Ascii.eqb Bool.eqb] in Hres;
    rewrite mbind_snd in Hres; cbn [lift snd] in Hres.
  - destruct (calculate_apparel_size gender m w) as [sizes|e]; [|discriminate].
    cbn [rbind mret snd] in Hres. injection Hres as <-.
    rewrite !lookup_insert_ne by discriminate. apply lookup_insert_eq.
  - destruct (calculate_tshirt_size gender m w) as [size|e]; [|discriminate].
    cbn [rbind mret snd] in Hres. injection Hres as <-.
    apply lookup_insert_eq.
  - destruct (calculate_pants_size gender m w) as [size|e]; [|discriminate].
    cbn [rbind mret snd] in Hres. injection Hres as <-.
    apply lookup_insert_eq.
Qed.

(** C7.  When a prediction succeeds, the measurement dictionary built from
    row 0 of the model's output has exactly the 14 keys of
    [MEASUREMENT_INDICES]; the value under each name is the entry at the
    name's index rounded to a multiple of 1/100 at distance at most 1/200;
    and this holds for every apparel type, which only decides what is put
    in the result: the whole dictionary for "all", its upper-body keys for
    "tshirt", its lower-body keys for "pants". *)
Theorem measurement_set_complete {image}
    (proc : string -> result image)
    (model : image -> image -> Z * Q * Q -> result (list (list Q)))
    front side gender h w a trace (res : gmap string pyvalue) :
  predict_measurements proc model front side gender h w a = (trace, Ok res) ->
  exists front_arr side_arr prediction row (m : gmap string Q),
    proc front = Ok front_arr /\ proc side = Ok side_arr /\
    model front_arr side_arr (gender, h, w) = Ok prediction /\
    prediction !! 0%nat = Some row /\
    build_measurements prediction = Ok m /\
    dom m = list_to_set measurement_names /\ size m = 14%nat /\
    (forall name idx, (name, idx) ∈ MEASUREMENT_INDICES ->
       exists x, row !! idx = Some x /\ m !! name = Some (round2 x) /\
                 (exists k : Z, round2 x = k # 100) /\
                 (Qabs (round2 x - x) <= 1 # 200)%Q) /\
    (a = "all" -> res !! "body_measurements" = Some (VDict m)) /\
    (a = "tshirt" ->
     res !! "upper_body_measurements" =
     Some (VDict (select_keys upper_body_keys m))) /\
    (a = "pants" ->
     res !! "lower_body_measurements" =
     Some (VDict (select_keys lower_body_keys m))).
Proof.
  intros Hrun.
  pose proof (predict_measurements_snd proc model front side gender h w a) as Hsnd.
  rewrite Hrun in Hsnd. cbn [snd] in Hsnd. symmetry in Hsnd.
  destruct (validate_inputs gender h w a) as [[]|e]; [|discriminate].
  cbn [rbind] in Hsnd.
  destruct (proc front) as [fa|e] eqn:Hf; [|discriminate].
  destruct (proc side) as [sa|e] eqn:Hs; [|discriminate].
  cbn [rbind] in Hsnd.
  destruct (model fa sa (gender, h, w)) as [p|e] eqn:Hp; [|discriminate].
  cbn [rbind] in Hsnd.
  destruct (build_measurements p) as [m|e] eqn:Hm; [|discriminate].
  cbn [rbind] in Hsnd.
  destruct (build_measurements_spec _ _ Hm) as (row & Hrow & Hwf & Hsize & Hval).
  exists fa, sa, p, row, m.
  split; [reflexivity|]. split; [reflexivity|]. split; [exact Hp|].
  split; [exact Hrow|]. split; [exact Hm|].
  split; [exact Hwf|]. split; [exact Hsize|].
  split; [|now apply (assemble_result_surface gender w)].
  intros name idx Hmem. destruct (Hval _ _ Hmem) as (x & Hx & Hlook).
  exists x. split; [exact Hx|]. split; [exact Hlook|].
  split; [apply round2_hundredths | apply round2_close].
Qed.

Lemma sample_run_tshirt :
  predict_measurements stub_process_image stub_model "front.png" "side.png"
    0 185 70 "tshirt" =
  ([EvProcessImage "front.png"; EvProcessImage "side.png";
    EvPredict (0, 185%Q, 70%Q)],
   Ok (<["upper_body_measurements" :=
           VDict (select_keys upper_body_keys sample_measurements)]>
         (<["tshirt_size" := VStr "Tall S"]> ∅))).
Proof. vm_compute. reflexivity. Qed.

Lemma measurement_set_complete_witness :
  exists trace res,
    predict_measurements stub_process_image stub_model "front.png" "side.png"
      0 185 70 "tshirt" = (trace, Ok res) /\
    exists m : gmap string Q,
      build_measurements [sample_row] = Ok m /\ size m = 14%nat /\
      m !! "height" = Some (round2 185.126) /\
      res !! "upper_body_measurements" =
      Some (VDict (select_keys upper_body_keys m)).
Proof.
  eexists _, _. split; [exact sample_run_tshirt|].
  destruct (measurement_set_complete stub_process_image stub_model
              "front.png" "side.png" 0 185 70 "tshirt" _ _ sample_run_tshirt)
    as (fa & sa & p & row & m & _ & _ & Hp & Hrow & Hm & _ & Hsize & Hval & _ & Hup & _).
  injection Hp as <-. injection Hrow as <-.
  exists m. split; [exact Hm|]. split; [exact Hsize|].
  split; [|exact (Hup eq_refl)].
  destruct (Hval "height" 6%nat) as (x & Hx & Hlook & _).
  { unfold MEASUREMENT_INDICES. do 6 right. left. }
  injection Hx as <-. exact Hlook.
Defined.

(** ** The role of the caller's height *)

Lemma validate_inputs_height gender h1 h2 w a :
  valid_height h1 -> valid_height h2 ->
  validate_inputs gender h1 w a = validate_inputs gender h2 w a.
Proof.
  intros H1 H2. apply valid_height_iff in H1, H2.
  unfold validate_inputs. now rewrite H1, H2.
Qed.

(** C10.  Two runs on the same images, gender, weight and apparel type,
    with two valid values of [height_cm], whose predictions give the same
    measurement set, return the same result, sizes included: it is the
    one assembled from the gender, the weight and the measurement set, and
    its sizes are those of the classifier on the measurement set, where
    the tall prefix and the pants adjustment read the measured height. *)
Theorem sizes_independent_of_height_cm {image}
    (proc : string -> result image)
    (model : image -> image -> Z * Q * Q -> result (list (list Q)))
    front side gender h1 h2 w a fa sa p1 p2 (m : gmap string Q)
    chest shoulder height waist hip :
  valid_height h1 -> valid_height h2 ->
  proc front = Ok fa -> proc side = Ok sa ->
  model fa sa (gender, h1, w) = Ok p1 ->
  model fa sa (gender, h2, w) = Ok p2 ->
  build_measurements p1 = Ok m ->
  build_measurements p2 = Ok m ->
  m !! "chest" = Some chest -> m !! "shoulder-breadth" = Some shoulder ->
  m !! "height" = Some height ->
  m !! "waist" = Some waist -> m !! "hip" = Some hip ->
  (predict_measurements proc model front side gender h1 w a).2 =
  (predict_measurements proc model front side gender h2 w a).2 /\
  (predict_measurements proc model front side gender h1 w a).2 =
  (_ <~ validate_inputs gender h1 w a; (assemble_result gender w a m).2) /\
  calculate_apparel_size gender m w =
  Ok (tall_prefix height
        (weight_override gender w
           (next_fit (tshirt (charts_of gender)) chest shoulder "XXXL")),
      height_adjust gender height
        (next_fit (pants (charts_of gender)) waist hip
           (last_size (pants (charts_of gender))))).
Proof.
  intros Hh1 Hh2 Hf Hs Hp1 Hp2 Hm1 Hm2 Hc Hsh Hh Hw Hhip.
  assert (Hrun : forall h p,
             model fa sa (gender, h, w) = Ok p -> build_measurements p = Ok m ->
             (predict_measurements proc model front side gender h w a).2 =
             (_ <~ validate_inputs gender h w a; (assemble_result gender w a m).2)).
  { intros h p Hp Hm. rewrite predict_measurements_snd, Hf, Hs. cbn [rbind].
    rewrite Hp. cbn [rbind]. rewrite Hm. reflexivity. }
  repeat split.
  - rewrite (Hrun _ _ Hp1 Hm1), (Hrun _ _ Hp2 Hm2).
    now rewrite (validate_inputs_height gender h1 h2 w a Hh1 Hh2).
  - exact (Hrun _ _ Hp1 Hm1).
  - unfold calculate_apparel_size.
    rewrite (calculate_tshirt_size_eq _ _ _ _ _ _ Hc Hsh Hh). cbn [rbind].
    rewrite (calculate_pants_size_eq _ _ _ _ _ _ Hw Hhip Hh). reflexivity.
Qed.

(** The model's output is the same for 170 and for 190: the measured
    height 185.13 decides, and both runs return "Tall S" and 36. *)
Lemma sample_measurements_built :
  build_measurements [sample_row] = Ok sample_measurements.
Proof. vm_compute. reflexivity. Qed.

Lemma sizes_independent_of_height_cm_witness :
  (valid_height 170 /\ valid_height 190) /\
  (predict_measurements stub_process_image stub_model "front.png" "side.png"
     0 170 70 "all").2 =
  (predict_measurements stub_process_image stub_model "front.png" "side.png"
     0 190 70 "all").2 /\
  calculate_apparel_size 0 sample_measurements 70 = Ok ("Tall S", 36).
Proof.
  assert (H1 : valid_height 170) by (split; vm_compute; discriminate).
  assert (H2 : valid_height 190) by (split; vm_compute; discriminate).
  split; [split; assumption|].
  assert (Hc : sample_measurements !! "chest" = Some 90.00%Q)
    by (vm_compute; reflexivity).
  assert (Hs : sample_measurements !! "shoulder-breadth" = Some 40.02%Q)
    by (vm_compute; reflexivity).
  assert (Hh : sample_measurements !! "height" = Some 185.13%Q)
    by (vm_compute; reflexivity).
  assert (Hw : sample_measurements !! "waist" = Some 82.50%Q)
    by (vm_compute; reflexivity).
  assert (Hp : sample_measurements !! "hip" = Some 98.00%Q)
    by (vm_compute; reflexivity).
  destruct (sizes_independent_of_height_cm stub_process_image stub_model
              "front.png" "side.png" 0 170 190 70 "all" tt tt
              [sample_row] [sample_row] sample_measurements _ _ _ _ _
              H1 H2 eq_refl eq_refl eq_refl eq_refl
              sample_measurements_built sample_measurements_built
              Hc Hs Hh Hw Hp)
    as (Heq & _ & Hsizes).
  split; [exact Heq|].
  rewrite Hsizes. vm_compute. reflexivity.
Defined.

(** ** The estimator produces a result *)

Lemma assemble_result_total gender w a (m : gmap string Q) :
  well_formed m -> exists res, (assemble_result gender w a m).2 = Ok res.
Proof.
  intros Hm.
  destruct (well_formed_classifier_keys m Hm)
    as ([c Hc] & [s Hs] & [h Hh] & [wa Hw] & [p Hp]).
  unfold assemble_result, calculate_apparel_size.
  rewrite (calculate_tshirt_size_eq _ _ _ _ _ _ Hc Hs Hh).
  rewrite (calculate_pants_size_eq _ _ _ _ _ _ Hw Hp Hh).
  destruct (String.eqb a "tshirt"); [eexists; reflexivity|].
  destruct (String.eqb a "pants"); [eexists; reflexivity|].
  destruct (String.eqb a "all"); eexists; reflexivity.
Qed.

(** X18.  With valid inputs, two images that can be processed and a model output
    whose row 0 has at least 14 entries, [predict_measurements] returns a
    result dictionary. *)
Lemma predict_measurements_succeeds {image}
    (proc : string -> result image)
    (model : image -> image -> Z * Q * Q -> result (list (list Q)))
    front side gender h w a fa sa row rest :
  valid_inputs gender h w a ->
  proc front = Ok fa -> proc side = Ok sa ->
  model fa sa (gender, h, w) = Ok (row :: rest) ->
  (14 <= length row)%nat ->
  exists res,
    (predict_measurements proc model front side gender h w a).2 = Ok res.
Proof.
  intros Hv Hf Hs Hp Hlen.
  destruct (build_measurements_total row rest Hlen) as [m Hm].
  destruct (build_measurements_spec _ _ Hm) as (_ & _ & Hwf & _).
  rewrite predict_measurements_snd, (validate_inputs_ok _ _ _ _ Hv), Hf, Hs.
  cbn [rbind]. rewrite Hp. cbn [rbind]. rewrite Hm. cbn [rbind].
  now apply assemble_result_total.
Qed.

(** What is surfaced for "tshirt" and "pants" is a part of the measurement
    set. *)
Lemma select_keys_subseteq keys (m : gmap string Q) : select_keys keys m ⊆ m.
Proof.
  apply map_subseteq_spec. intros k v. rewrite select_keys_lookup.
  destruct (bool_decide (k ∈ keys)); [tauto | discriminate].
Qed.

(** * Further properties of the classifier *)

(** ** Which keys the classifier reads *)

Lemma getitem_None {V} (d : gmap string V) k :
  d !! k = None -> getitem d k = Raise (KeyError k).
Proof. unfold getitem. now intros ->. Qed.

Ltac absurd_lookup :=
  repeat match goal with
    | H : is_Some None |- _ => destruct H as [? H]; discriminate H
    | H : exists _, Raise _ = Ok _ |- _ => destruct H as [? H]; discriminate H
    | H : None = Some _ |- _ => discriminate H
    | H : Some _ = None |- _ => discriminate H
    | H : _ /\ _ |- _ => destruct H
    end.

Ltac by_keys := repeat split; intros; absurd_lookup; eauto.

(** X1.  [calculate_tshirt_size] reads "chest", "shoulder-breadth" and "height",
    in this order, and nothing else: it returns a label exactly when the
    three are present, and otherwise raises [KeyError] on the first one
    that is missing. *)
Theorem tshirt_size_keys gender (m : gmap string Q) weight :
  ((exists label, calculate_tshirt_size gender m weight = Ok label) <->
   is_Some (m !! "chest") /\ is_Some (m !! "shoulder-breadth") /\
   is_Some (m !! "height")) /\
  (m !! "chest" = None ->
   calculate_tshirt_size gender m weight = Raise (KeyError "chest")) /\
  (is_Some (m !! "chest") -> m !! "shoulder-breadth" = None ->
   calculate_tshirt_size gender m weight = Raise (KeyError "shoulder-breadth")) /\
  (is_Some (m !! "chest") -> is_Some (m !! "shoulder-breadth") ->
   m !! "height" = None ->
   calculate_tshirt_size gender m weight = Raise (KeyError "height")).
Proof.
  unfold calculate_tshirt_size. rewrite SIZE_CHARTS_lookup. cbn [rbind].
  destruct (m !! "chest") as [c|] eqn:Hc;
    [rewrite (getitem_Some _ _ _ Hc) | rewrite (getitem_None _ _ Hc)];
    cbn [rbind]; [|by_keys].
  destruct (m !! "shoulder-breadth") as [s|] eqn:Hs;
    [rewrite (getitem_Some _ _ _ Hs) | rewrite (getitem_None _ _ Hs)];
    cbn [rbind]; [|by_keys].
  destruct (m !! "height") as [h|] eqn:Hh;
    [rewrite (getitem_Some _ _ _ Hh) | rewrite (getitem_None _ _ Hh)];
    cbn [rbind]; by_keys.
Qed.

Lemma tshirt_size_keys_witness :
  let m : gmap string Q := <["chest" := 90%Q]> (<["height" := 170%Q]> ∅) in
  (is_Some (m !! "chest") /\ m !! "shoulder-breadth" = None) /\
  calculate_tshirt_size 0 m 70 = Raise (KeyError "shoulder-breadth").
Proof.
  intros m.
  assert (Hc : is_Some (m !! "chest")) by (exists 90%Q; vm_compute; reflexivity).
  assert (Hs : m !! "shoulder-breadth" = None) by (vm_compute; reflexivity).
  split; [split; assumption|].
  exact (proj1 (proj2 (proj2 (tshirt_size_keys 0 m 70))) Hc Hs).
Defined.

(** X2.  [calculate_pants_size] reads "waist", "hip" and "height", in this
    order, and nothing else: it returns a size exactly when the three are
    present, and otherwise raises [KeyError] on the first one that is
    missing. *)
Theorem pants_size_keys gender (m : gmap string Q) weight :
  ((exists size, calculate_pants_size gender m weight = Ok size) <->
   is_Some (m !! "waist") /\ is_Some (m !! "hip") /\ is_Some (m !! "height")) /\
  (m !! "waist" = None ->
   calculate_pants_size gender m weight = Raise (KeyError "waist")) /\
  (is_Some (m !! "waist") -> m !! "hip" = None ->
   calculate_pants_size gender m weight = Raise (KeyError "hip")) /\
  (is_Some (m !! "waist") -> is_Some (m !! "hip") -> m !! "height" = None ->
   calculate_pants_size gender m weight = Raise (KeyError "height")).
Proof.
  unfold calculate_pants_size. rewrite SIZE_CHARTS_lookup. cbn [rbind].
  destruct (m !! "waist") as [c|] eqn:Hc;
    [rewrite (getitem_Some _ _ _ Hc) | rewrite (getitem_None _ _ Hc)];
    cbn [rbind]; [|by_keys].
  destruct (m !! "hip") as [s|] eqn:Hs;
    [rewrite (getitem_Some _ _ _ Hs) | rewrite (getitem_None _ _ Hs)];
    cbn [rbind]; [|by_keys].
  rewrite getlast_pants. cbn [rbind].
  destruct (m !! "height") as [h|] eqn:Hh;
    [rewrite (getitem_Some _ _ _ Hh) | rewrite (getitem_None _ _ Hh)];
    cbn [rbind]; by_keys.
Qed.

Lemma pants_size_keys_witness :
  let m : gmap string Q := <["waist" := 80%Q]> (<["hip" := 100%Q]> ∅) in
  (is_Some (m !! "waist") /\ is_Some (m !! "hip") /\ m !! "height" = None) /\
  calculate_pants_size 1 m 70 = Raise (KeyError "height").
Proof.
  intros m.
  assert (Hw : is_Some (m !! "waist")) by (exists 80%Q; vm_compute; reflexivity).
  assert (Hp : is_Some (m !! "hip")) by (exists 100%Q; vm_compute; reflexivity).
  assert (Hh : m !! "height" = None) by (vm_compute; reflexivity).
  split; [repeat split; assumption|].
  exact (proj2 (proj2 (proj2 (pants_size_keys 1 m 70))) Hw Hp Hh).
Defined.

(** ** The range of the sizes *)

Lemma calculate_tshirt_size_Ok_inv gender (m : gmap string Q) weight label :
  calculate_tshirt_size gender m weight = Ok label ->
  exists chest shoulder height,
    m !! "chest" = Some chest /\ m !! "shoulder-breadth" = Some shoulder /\
    m !! "height" = Some height.
Proof.
  unfold calculate_tshirt_size. rewrite SIZE_CHARTS_lookup. unfold getitem. cbn [rbind].
  destruct (m !! "chest") as [c|]; [|discriminate]. cbn [rbind].
  destruct (m !! "shoulder-breadth") as [s|]; [|discriminate]. cbn [rbind].
  destruct (m !! "height") as [h|]; [|discriminate].
  intros _. now eexists _, _, _.
Qed.

Lemma calculate_pants_size_Ok_inv gender (m : gmap string Q) weight size :
  calculate_pants_size gender m weight = Ok size ->
  exists waist hip height,
    m !! "waist" = Some waist /\ m !! "hip" = Some hip /\
    m !! "height" = Some height.
Proof.
  unfold calculate_pants_size. rewrite SIZE_CHARTS_lookup.
  unfold getitem. cbn [rbind].
  destruct (m !! "waist") as [c|]; [|discriminate]. cbn [rbind].
  destruct (m !! "hip") as [s|]; [|discriminate]. cbn [rbind].
  rewrite getlast_pants. cbn [rbind].
  destruct (m !! "height") as [h|]; [|discriminate].
  intros _. now eexists _, _, _.
Qed.

Lemma tshirt_next_fit_label gender a b :
  next_fit (tshirt (charts_of gender)) a b "XXXL"
  ∈ ["S"; "M"; "L"; "XL"; "XXL"; "XXXL"].
Proof.
  unfold charts_of.
  destruct (gender =? 0); cbn [tshirt male_chart female_chart next_fit];
    repeat (match goal with
            | |- context [Qle_int ?x ?n && Qle_int ?y ?k] =>
                destruct (Qle_int x n && Qle_int y k);
                [repeat (first [left | right])|]
            end);
    repeat (first [left | right]).
Qed.

(** X3.  The label that [calculate_tshirt_size] returns is one of the six tiers
    "S" to "XXXL", with "Tall " in front exactly when the measured height
    is above 180: twelve labels in all. *)
Theorem tshirt_label_range gender (m : gmap string Q) weight label :
  calculate_tshirt_size gender m weight = Ok label ->
  exists tier height,
    tier ∈ ["S"; "M"; "L"; "XL"; "XXL"; "XXXL"] /\
    m !! "height" = Some height /\
    label = if Qgtb height 180 then "Tall " +:+ tier else tier.
Proof.
  intros Hrun.
  destruct (calculate_tshirt_size_Ok_inv _ _ _ _ Hrun) as (c & s & h & Hc & Hs & Hh).
  rewrite (calculate_tshirt_size_eq _ _ _ _ _ _ Hc Hs Hh) in Hrun.
  injection Hrun as <-.
  exists (weight_override gender weight
            (next_fit (tshirt (charts_of gender)) c s "XXXL")), h.
  split; [|split; [exact Hh | reflexivity]].
  unfold weight_override.
  destruct (Qgtb weight 95 && (gender =? 0) || Qgtb weight 80 && (gender =? 1)).
  - do 4 right. left.
  - apply tshirt_next_fit_label.
Qed.

Lemma tshirt_label_range_witness :
  calculate_tshirt_size 1 (subject 100 43 181 80 100) 60 = Ok "Tall L" /\
  exists tier height,
    tier ∈ ["S"; "M"; "L"; "XL"; "XXL"; "XXXL"] /\
    subject 100 43 181 80 100 !! "height" = Some height /\
    "Tall L" = if Qgtb height 180 then "Tall " +:+ tier else tier.
Proof.
  assert (Hrun : calculate_tshirt_size 1 (subject 100 43 181 80 100) 60 = Ok "Tall L")
    by (vm_compute; reflexivity).
  split; [exact Hrun|].
  exact (tshirt_label_range 1 _ 60 "Tall L" Hrun).
Defined.

Lemma pants_next_fit_pos gender a b :
  let chart := pants (charts_of gender) in
  next_fit chart a b (last_size chart) =
  (if gender =? 0 then 30 else 26) + 2 * Z.of_nat (Nat.min (fit_pos chart a b) 6).
Proof.
  unfold charts_of.
  destruct (gender =? 0);
    cbn [pants male_chart female_chart next_fit fit_pos];
    repeat (match goal with
            | |- context [Qle_int ?x ?n && Qle_int ?y ?k] =>
                destruct (Qle_int x n && Qle_int y k); [reflexivity|]
            end);
    reflexivity.
Qed.

(** X4.  The pants size is an even number: from 30 to 42 for gender 0, and at
    least 32 there when the measured height is above 180; from 26 to 38
    for any other gender.  The height adjustment never leaves the chart's
    range. *)
Theorem pants_size_range gender (m : gmap string Q) weight size :
  calculate_pants_size gender m weight = Ok size ->
  Z.even size = true /\
  (gender = 0 -> 30 <= size <= 42) /\
  (gender <> 0 -> 26 <= size <= 38) /\
  (gender = 0 ->
   (exists height, m !! "height" = Some height /\ (180 < height)%Q) ->
   32 <= size).
Proof.
  intros Hrun.
  destruct (calculate_pants_size_Ok_inv _ _ _ _ Hrun) as (wa & hp & h & Hw & Hp & Hh).
  rewrite (calculate_pants_size_eq _ _ _ _ _ _ Hw Hp Hh) in Hrun.
  injection Hrun as <-.
  rewrite pants_next_fit_pos.
  set (i := Nat.min (fit_pos (pants (charts_of gender)) wa hp) 6).
  assert (Hi : (i <= 6)%nat) by (unfold i; lia).
  clearbody i. unfold height_adjust.
  assert (Heven : forall k, Z.even (30 + 2 * k) = true /\ Z.even (26 + 2 * k) = true
                            /\ Z.even (30 + 2 * k + 2) = true).
  { intros k. rewrite !Z.even_add, !Z.even_mul. split; [|split]; reflexivity. }
  destruct (Heven (Z.of_nat i)) as (E30 & E26 & E32).
  split; [|split; [|split]].
  - destruct (gender =? 0) eqn:Eg; [|now rewrite andb_false_r].
    destruct (Qgtb h 180); cbn [andb]; [|exact E30].
    destruct (30 + 2 * Z.of_nat i <? 40); [exact E32|].
    now rewrite Z.add_0_r.
  - intros ->. cbn [Z.eqb].
    destruct (Qgtb h 180); cbn [andb]; [|lia].
    destruct (30 + 2 * Z.of_nat i <? 40) eqn:E; [apply Z.ltb_lt in E|]; lia.
  - intros Hg. apply Z.eqb_neq in Hg. rewrite Hg, andb_false_r. lia.
  - intros -> (h' & Hh' & Ht). rewrite Hh in Hh'. injection Hh' as <-.
    apply Qgtb_iff in Ht. rewrite Ht. cbn [Z.eqb andb].
    destruct (30 + 2 * Z.of_nat i <? 40) eqn:E; [lia|].
    apply Z.ltb_ge in E. lia.
Qed.

Lemma pants_size_range_witness :
  calculate_pants_size 0 (subject 90 40 185 70 90) 70 = Ok 32 /\
  Z.even 32 = true /\ 30 <= 32 <= 42.
Proof.
  assert (Hrun : calculate_pants_size 0 (subject 90 40 185 70 90) 70 = Ok 32)
    by (vm_compute; reflexivity).
  split; [exact Hrun|].
  destruct (pants_size_range 0 _ 70 32 Hrun) as (He & Hm & _).
  split; [exact He | exact (Hm eq_refl)].
Defined.

(** ** Monotonicity of the pants size *)

(** X5.  Two measurement sets that differ only in that waist and hip are at
    least as large in the second, with the same gender: the pants size of
    the second is at least that of the first, height adjustment included,
    whatever the two weights are. *)
Theorem pants_size_monotonic gender (m1 m2 : gmap string Q) w1 w2
    waist1 hip1 waist2 hip2 height :
  m1 !! "waist" = Some waist1 ->
  m1 !! "hip" = Some hip1 ->
  m1 !! "height" = Some height ->
  m2 = <["waist" := waist2]> (<["hip" := hip2]> m1) ->
  (waist1 <= waist2)%Q -> (hip1 <= hip2)%Q ->
  exists s1 s2,
    calculate_pants_size gender m1 w1 = Ok s1 /\
    calculate_pants_size gender m2 w2 = Ok s2 /\
    s1 <= s2.
Proof.
  intros Hw Hp Hh -> Hwle Hple.
  eexists _, _. split; [|split].
  - apply (calculate_pants_size_eq _ _ _ _ _ _ Hw Hp Hh).
  - apply calculate_pants_size_eq.
    + apply lookup_insert_eq.
    + rewrite lookup_insert_ne by discriminate. apply lookup_insert_eq.
    + rewrite !lookup_insert_ne by discriminate. exact Hh.
  - rewrite !pants_next_fit_pos.
    pose proof (fit_pos_mono (pants (charts_of gender)) _ _ _ _ Hwle Hple) as Hpos.
    set (i1 := fit_pos (pants (charts_of gender)) waist1 hip1) in *.
    set (i2 := fit_pos (pants (charts_of gender)) waist2 hip2) in *.
    clearbody i1 i2. unfold height_adjust.
    destruct (gender =? 0); [|rewrite andb_false_r; lia].
    destruct (Qgtb height 180); cbn [andb]; [|lia].
    destruct (30 + 2 * Z.of_nat (Nat.min i1 6) <? 40) eqn:E1;
      destruct (30 + 2 * Z.of_nat (Nat.min i2 6) <? 40) eqn:E2;
      try apply Z.ltb_lt in E1; try apply Z.ltb_ge in E1;
      try apply Z.ltb_lt in E2; try apply Z.ltb_ge in E2; lia.
Qed.

Lemma pants_size_monotonic_witness :
  let m1 := subject 90 40 185 95 120 in
  let m2 := <["waist" := 100%Q]> (<["hip" := 125%Q]> m1) in
  (m1 !! "waist" = Some 95%Q /\ m1 !! "hip" = Some 120%Q /\
   m1 !! "height" = Some 185%Q /\ (95 <= 100)%Q /\ (120 <= 125)%Q) /\
  exists s1 s2,
    calculate_pants_size 0 m1 70 = Ok s1 /\
    calculate_pants_size 0 m2 100 = Ok s2 /\ s1 <= s2.
Proof.
  intros m1 m2.
  assert (H1 : m1 !! "waist" = Some 95%Q) by (vm_compute; reflexivity).
  assert (H2 : m1 !! "hip" = Some 120%Q) by (vm_compute; reflexivity).
  assert (H3 : m1 !! "height" = Some 185%Q) by (vm_compute; reflexivity).
  assert (H4 : (95 <= 100)%Q) by (vm_compute; discriminate).
  assert (H5 : (120 <= 125)%Q) by (vm_compute; discriminate).
  split; [repeat split; assumption|].
  exact (pants_size_monotonic 0 m1 m2 70 100 95 120 100 125 185
           H1 H2 H3 eq_refl H4 H5).
Defined.

(** ** The weight override against the chart *)

Lemma weight_override_off gender weight base :
  ~ overweight gender weight -> weight_override gender weight base = base.
Proof.
  unfold weight_override, overweight. intros Hn.
  destruct (Qgtb weight 95 && (gender =? 0) || Qgtb weight 80 && (gender =? 1)) eqn:E;
    [|reflexivity].
  exfalso. apply Hn.
  apply orb_true_iff in E as [E|E]; apply andb_true_iff in E as [E1 E2];
    apply Qgtb_iff in E1; apply Z.eqb_eq in E2; auto.
Qed.

Lemma tshirt_next_fit_largest gender a b :
  Forall (fun r => ~ fits a b r) (take 5 (tshirt (charts_of gender))) ->
  next_fit (tshirt (charts_of gender)) a b "XXXL" = "XXXL".
Proof.
  unfold charts_of. destruct (gender =? 0);
    cbn [tshirt male_chart female_chart take]; intros Hn;
    repeat (match goal with
            | H : Forall _ (_ :: _) |- _ =>
                apply Forall_cons in H as [?%not_fits_iff H]
            end);
    cbn [next_fit fst snd] in *;
    repeat (match goal with
            | H : _ && _ = false |- _ => rewrite H; clear H
            end);
    now destruct (_ && _).
Qed.

(** X6.  The override is unconditional, so it can lower the tier: a subject
    that none of the rows "S" to "XXL" admits is sized "XXXL" at a weight
    under the threshold and "XXL" at a weight over it. *)
Theorem weight_override_lowers_tier gender (m : gmap string Q) w1 w2
    chest shoulder height :
  m !! "chest" = Some chest ->
  m !! "shoulder-breadth" = Some shoulder ->
  m !! "height" = Some height ->
  Forall (fun r => ~ fits chest shoulder r) (take 5 (tshirt (charts_of gender))) ->
  ~ overweight gender w1 -> overweight gender w2 ->
  calculate_tshirt_size gender m w1 = Ok (tall_prefix height "XXXL") /\
  calculate_tshirt_size gender m w2 = Ok (tall_prefix height "XXL") /\
  (tier_index (tshirt (charts_of gender)) "XXL" <
   tier_index (tshirt (charts_of gender)) "XXXL")%nat.
Proof.
  intros Hc Hs Hh Hn H1 H2.
  rewrite !(calculate_tshirt_size_eq _ _ _ _ _ _ Hc Hs Hh).
  rewrite (tshirt_next_fit_largest _ _ _ Hn).
  rewrite (weight_override_off _ _ _ H1), (weight_override_on _ _ _ H2).
  split; [reflexivity|]. split; [reflexivity|].
  unfold charts_of. destruct (gender =? 0); cbn; lia.
Qed.

Lemma weight_override_lowers_tier_witness :
  let m := subject 130 50 170 80 100 in
  (m !! "chest" = Some 130%Q /\ m !! "shoulder-breadth" = Some 50%Q /\
   m !! "height" = Some 170%Q /\
   Forall (fun r => ~ fits 130 50 r) (take 5 (tshirt (charts_of 0))) /\
   ~ overweight 0 90 /\ overweight 0 96) /\
  calculate_tshirt_size 0 m 90 = Ok "XXXL" /\
  calculate_tshirt_size 0 m 96 = Ok "XXL".
Proof.
  intros m.
  assert (H1 : m !! "chest" = Some 130%Q) by (vm_compute; reflexivity).
  assert (H2 : m !! "shoulder-breadth" = Some 50%Q) by (vm_compute; reflexivity).
  assert (H3 : m !! "height" = Some 170%Q) by (vm_compute; reflexivity).
  assert (H4 : Forall (fun r => ~ fits 130 50 r) (take 5 (tshirt (charts_of 0))))
    by (repeat constructor; apply not_fits_iff; reflexivity).
  assert (H5 : ~ overweight 0 90).
  { intros [[H _]|[_ H]]; [vm_compute in H|]; discriminate. }
  assert (H6 : overweight 0 96) by (left; split; reflexivity).
  split; [repeat split; assumption|].
  destruct (weight_override_lowers_tier 0 m 90 96 130 50 170 H1 H2 H3 H4 H5 H6)
    as (R1 & R2 & _).
  split; [exact R1 | exact R2].
Defined.

(** ** A gender outside 0 and 1 *)

(** X7.  Called with a gender that is neither 0 nor 1, the two functions use
    the female charts, and neither the weight override nor the height
    adjustment applies, at any weight. *)
Theorem other_gender_sizes gender (m : gmap string Q) weight
    chest shoulder height waist hip :
  gender <> 0 -> gender <> 1 ->
  m !! "chest" = Some chest ->
  m !! "shoulder-breadth" = Some shoulder ->
  m !! "height" = Some height ->
  m !! "waist" = Some waist ->
  m !! "hip" = Some hip ->
  calculate_tshirt_size gender m weight =
    Ok (tall_prefix height (next_fit (tshirt female_chart) chest shoulder "XXXL")) /\
  calculate_pants_size gender m weight =
    Ok (next_fit (pants female_chart) waist hip 38).
Proof.
  intros H0 H1 Hc Hs Hh Hw Hp.
  rewrite (calculate_tshirt_size_eq _ _ _ _ _ _ Hc Hs Hh).
  rewrite (calculate_pants_size_eq _ _ _ _ _ _ Hw Hp Hh).
  unfold charts_of, weight_override, height_adjust.
  apply Z.eqb_neq in H0, H1. rewrite H0, H1, !andb_false_r. cbn [orb].
  split; reflexivity.
Qed.

Lemma other_gender_sizes_witness :
  let m := subject 90 40 185 95 120 in
  (2 <> 0 /\ 2 <> 1 /\ m !! "chest" = Some 90%Q /\
   m !! "shoulder-breadth" = Some 40%Q /\ m !! "height" = Some 185%Q /\
   m !! "waist" = Some 95%Q /\ m !! "hip" = Some 120%Q) /\
  calculate_tshirt_size 2 m 120 = Ok "Tall M" /\
  calculate_pants_size 2 m 120 = Ok 38.
Proof.
  intros m.
  assert (H1 : m !! "chest" = Some 90%Q) by (vm_compute; reflexivity).
  assert (H2 : m !! "shoulder-breadth" = Some 40%Q) by (vm_compute; reflexivity).
  assert (H3 : m !! "height" = Some 185%Q) by (vm_compute; reflexivity).
  assert (H4 : m !! "waist" = Some 95%Q) by (vm_compute; reflexivity).
  assert (H5 : m !! "hip" = Some 120%Q) by (vm_compute; reflexivity).
  assert (N0 : 2 <> 0) by discriminate.
  assert (N1 : 2 <> 1) by discriminate.
  split; [repeat split; assumption|].
  exact (other_gender_sizes 2 m 120 90 40 185 95 120 N0 N1 H1 H2 H3 H4 H5).
Defined.

(** * Further properties of the estimator *)

(** ** Rounding *)

Lemma round_half_even_inject_Z (k : Z) (q : Q) :
  q == inject_Z k -> round_half_even q = k.
Proof.
  intros Hq. unfold round_half_even.
  rewrite (Qfloor_comp _ _ Hq), Qfloor_Z.
  assert (E : Qcompare (q - inject_Z k) (1 # 2) = Lt).
  { apply (proj1 (Qlt_alt _ _)). lra. }
  now rewrite E.
Qed.

(** X8.  [round(x, 2)] leaves a value with two decimals as it is, so rounding
    twice is rounding once. *)
Theorem round2_idempotent (x : Q) (k : Z) :
  round2 (k # 100) = k # 100 /\ round2 (round2 x) = round2 x.
Proof.
  assert (H : forall n : Z, round2 (n # 100) = n # 100).
  { intros n. unfold round2. f_equal. apply round_half_even_inject_Z.
    unfold Qeq. cbn. lia. }
  split; [apply H|]. unfold round2 at 2 3. apply H.
Qed.

Lemma round_half_even_bounds (q : Q) :
  Qfloor q <= round_half_even q <= Qfloor q + 1.
Proof.
  unfold round_half_even.
  destruct (Qcompare (q - inject_Z (Qfloor q)) (1 # 2)); [|lia|lia].
  destruct (Z.even (Qfloor q)); lia.
Qed.

Lemma round_half_even_mono (p q : Q) :
  (p <= q)%Q -> round_half_even p <= round_half_even q.
Proof.
  intros Hle.
  pose proof (Qfloor_resp_le _ _ Hle) as Hf.
  destruct (Z.eq_dec (Qfloor p) (Qfloor q)) as [E|N].
  - unfold round_half_even. rewrite E.
    destruct (Qcompare (p - inject_Z (Qfloor q)) (1 # 2)) eqn:Cp;
      destruct (Qcompare (q - inject_Z (Qfloor q)) (1 # 2)) eqn:Cq;
      try apply (proj2 (Qeq_alt _ _)) in Cp; try apply (proj2 (Qlt_alt _ _)) in Cp;
      try apply (proj2 (Qgt_alt _ _)) in Cp;
      try apply (proj2 (Qeq_alt _ _)) in Cq; try apply (proj2 (Qlt_alt _ _)) in Cq;
      try apply (proj2 (Qgt_alt _ _)) in Cq;
      try lia; try (exfalso; lra);
      destruct (Z.even (Qfloor q)); lia.
  - pose proof (round_half_even_bounds p). pose proof (round_half_even_bounds q).
    lia.
Qed.

(** X9.  Rounding keeps the order of two values. *)
Theorem round2_monotone (x y : Q) :
  (x <= y)%Q -> (round2 x <= round2 y)%Q.
Proof.
  intros Hle. unfold round2, Qle. cbn [Qnum Qden].
  apply Z.mul_le_mono_nonneg_r; [lia|].
  apply round_half_even_mono. lra.
Qed.

Lemma round2_monotone_witness :
  (0.125 <= 0.135)%Q /\ (round2 0.125 <= round2 0.135)%Q.
Proof.
  assert (H : (0.125 <= 0.135)%Q) by (vm_compute; discriminate).
  split; [exact H | exact (round2_monotone _ _ H)].
Defined.

(** ** The shape of the model's output *)

Lemma dict_of_row_take items row (acc : gmap string Q) n :
  (forall name idx, (name, idx) ∈ items -> (idx < n)%nat) ->
  dict_of_row items (take n row) acc = dict_of_row items row acc.
Proof.
  revert acc. induction items as [|[name idx] rest IH]; intros acc Hlt;
    [reflexivity|].
  cbn [dict_of_row]. rewrite lookup_take_lt by (apply (Hlt name); left).
  destruct (row !! idx); [|reflexivity].
  apply IH. intros name' idx' Hmem. apply (Hlt name'). now right.
Qed.

Lemma MEASUREMENT_INDICES_bound name idx :
  (name, idx) ∈ MEASUREMENT_INDICES -> (idx < 14)%nat.
Proof.
  unfold MEASUREMENT_INDICES. intros Hmem.
  repeat (apply elem_of_cons in Hmem as [Heq|Hmem];
          [injection Heq as -> ->; lia|]).
  inversion Hmem.
Qed.

Lemma dict_of_row_short items row (acc : gmap string Q) name idx :
  (name, idx) ∈ items -> (length row <= idx)%nat ->
  dict_of_row items row acc = Raise IndexError.
Proof.
  revert acc. induction items as [|[n i] rest IH]; intros acc Hmem Hlen.
  - inversion Hmem.
  - cbn [dict_of_row]. destruct (row !! i) as [x|] eqn:Hx; [|reflexivity].
    apply elem_of_cons in Hmem as [Heq|Hmem].
    + injection Heq as -> ->.
      apply lookup_lt_Some in Hx. lia.
    + now apply IH.
Qed.

(** X10.  The measurement dictionary is built exactly when the model's output
    has a row 0 with at least 14 entries, and then only the first 14
    entries of that row matter; with no row or a shorter row 0 the
    subscript raises [IndexError]. *)
Theorem build_measurements_shape (prediction : list (list Q)) :
  (forall row rest, prediction = row :: rest -> (14 <= length row)%nat ->
     (exists m, build_measurements prediction = Ok m) /\
     build_measurements prediction = build_measurements [take 14 row]) /\
  (forall row rest, prediction = row :: rest -> (length row < 14)%nat ->
     build_measurements prediction = Raise IndexError) /\
  (prediction = [] -> build_measurements prediction = Raise IndexError).
Proof.
  split; [|split].
  - intros row rest -> Hlen. split; [now apply build_measurements_total|].
    unfold build_measurements. cbn [lookup list_lookup].
    symmetry. apply dict_of_row_take. apply MEASUREMENT_INDICES_bound.
  - intros row rest -> Hlen. unfold build_measurements. cbn [lookup list_lookup].
    apply (dict_of_row_short _ _ _ "wrist" 13%nat); [|lia].
    unfold MEASUREMENT_INDICES. do 13 right. left.
  - intros ->. reflexivity.
Qed.

Lemma build_measurements_shape_witness :
  build_measurements [[1; 2; 3]%Q] = Raise IndexError /\
  build_measurements ([] : list (list Q)) = Raise IndexError.
Proof.
  destruct (build_measurements_shape [[1; 2; 3]%Q]) as (_ & Hshort & _).
  destruct (build_measurements_shape []) as (_ & _ & Hnil).
  split; [apply (Hshort _ [] eq_refl); cbn; lia | exact (Hnil eq_refl)].
Defined.

(** ** The effects of a run, in order *)

Lemma assemble_result_silent gender w a (m : gmap string Q) :
  (assemble_result gender w a m).1 = [].
Proof.
  unfold assemble_result.
  destruct (String.eqb a "tshirt");
    [destruct (calculate_tshirt_size gender m w); reflexivity|].
  destruct (String.eqb a "pants");
    [destruct (calculate_pants_size gender m w); reflexivity|].
  destruct (String.eqb a "all");
    [destruct (calculate_apparel_size gender m w); reflexivity|reflexivity].
Qed.

(** The events of the stages that were entered, before any error log. *)
Lemma predict_measurements_fst {image}
    (proc : string -> result image)
    (model : image -> image -> Z * Q * Q -> result (list (list Q)))
    front side gender h w a :
  (predict_measurements proc model front side gender h w a).1 =
  (match validate_inputs gender h w a with
   | Raise _ => []
   | Ok _ =>
       EvProcessImage front ::
       match proc front with
       | Raise _ => []
       | Ok _ =>
           EvProcessImage side ::
           match proc side with
           | Raise _ => []
           | Ok _ => [EvPredict (gender, h, w)]
           end
       end
   end ++
   match (predict_measurements proc model front side gender h w a).2 with
   | Ok _ => []
   | Raise e => [EvLogError ("Prediction failed: " +:+ exn_str e)]
   end)%list.
Proof.
  unfold predict_measurements, process_single_person.
  destruct (validate_inputs gender h w a) as [[]|e]; [|reflexivity].
  destruct (proc front) as [fa|e]; [|reflexivity].
  destruct (proc side) as [sa|e]; [|reflexivity].
  cbn -[assemble_result build_measurements].
  destruct (model fa sa (gender, h, w)) as [p|e]; [|reflexivity].
  cbn -[assemble_result build_measurements].
  destruct (build_measurements p) as [m|e]; [|reflexivity].
  cbn -[assemble_result build_measurements].
  pose proof (assemble_result_silent gender w a m) as Hs.
  destruct (assemble_result gender w a m) as [t [r|e]];
    cbn [fst] in Hs; subst t; reflexivity.
Qed.

(** X11.  A run that returns has processed the front image, then the side
    image, then called the model once on the metadata as given, and the
    estimator has logged no error. *)
Theorem success_trace {image}
    (proc : string -> result image)
    (model : image -> image -> Z * Q * Q -> result (list (list Q)))
    front side gender h w a trace (res : gmap string pyvalue) :
  predict_measurements proc model front side gender h w a = (trace, Ok res) ->
  trace = [EvProcessImage front; EvProcessImage side; EvPredict (gender, h, w)].
Proof.
  intros Hrun.
  pose proof (predict_measurements_fst proc model front side gender h w a) as Hfst.
  pose proof (predict_measurements_snd proc model front side gender h w a) as Hsnd.
  rewrite Hrun in Hfst, Hsnd. cbn [fst snd] in Hfst, Hsnd.
  destruct (validate_inputs gender h w a) as [[]|e]; [|discriminate].
  cbn [rbind] in Hsnd.
  destruct (proc front) as [fa|e]; [|discriminate].
  destruct (proc side) as [sa|e]; [|discriminate].
  exact Hfst.
Qed.

Lemma success_trace_witness :
  exists trace res,
    predict_measurements stub_process_image stub_model "front.png" "side.png"
      0 185 70 "tshirt" = (trace, Ok res) /\
    trace = [EvProcessImage "front.png"; EvProcessImage "side.png";
             EvPredict (0, 185%Q, 70%Q)].
Proof.
  eexists _, _. split; [exact sample_run_tshirt|].
  exact (success_trace _ _ _ _ _ _ _ _ _ _ sample_run_tshirt).
Defined.

(** X12.  A run that raises [e] ends with the estimator's log line,
    "Prediction failed: " followed by [str(e)], and raises the same [e];
    what precedes that line is an initial part of: front image, side
    image, model call.  (What the preprocessor logs on its own failure is
    inside the capability.) *)
Theorem failure_trace {image}
    (proc : string -> result image)
    (model : image -> image -> Z * Q * Q -> result (list (list Q)))
    front side gender h w a trace e :
  predict_measurements proc model front side gender h w a = (trace, Raise e) ->
  exists stages,
    trace = (stages ++ [EvLogError ("Prediction failed: " +:+ exn_str e)])%list /\
    stages `prefix_of`
      [EvProcessImage front; EvProcessImage side; EvPredict (gender, h, w)].
Proof.
  intros Hrun.
  pose proof (predict_measurements_fst proc model front side gender h w a) as Hfst.
  rewrite Hrun in Hfst. cbn [fst snd] in Hfst.
  eexists. split; [exact Hfst|].
  destruct (validate_inputs gender h w a) as [[]|e'];
    [|apply prefix_nil].
  apply prefix_cons.
  destruct (proc front) as [fa|e']; [|apply prefix_nil].
  apply prefix_cons.
  destruct (proc side) as [sa|e']; [|apply prefix_nil].
  reflexivity.
Qed.

Lemma failure_trace_witness :
  predict_measurements stub_process_image stub_model "front.png" "side.png"
    0 185 20 "all" =
  ([EvLogError "Prediction failed: Weight must be between 30-300 kg."],
   Raise (ValueError "Weight must be between 30-300 kg.")) /\
  exists stages,
    [EvLogError "Prediction failed: Weight must be between 30-300 kg."] =
    (stages ++ [EvLogError ("Prediction failed: " +:+
                            exn_str (ValueError "Weight must be between 30-300 kg."))])%list /\
    stages `prefix_of`
      [EvProcessImage "front.png"; EvProcessImage "side.png";
       EvPredict (0, 185%Q, 20%Q)].
Proof.
  assert (Hrun :
    predict_measurements stub_process_image stub_model "front.png" "side.png"
      0 185 20 "all" =
    ([EvLogError "Prediction failed: Weight must be between 30-300 kg."],
     Raise (ValueError "Weight must be between 30-300 kg.")))
    by (vm_compute; reflexivity).
  split; [exact Hrun|].
  exact (failure_trace _ _ _ _ _ _ _ _ _ _ Hrun).
Defined.

(** X13.  An image that cannot be processed stops the run at once: when the
    front image fails, the side image is not touched; when the side image
    fails, the model is not called; in both cases the preprocessor's
    exception is the one raised. *)
Theorem preprocessing_failure {image}
    (proc : string -> result image)
    (model : image -> image -> Z * Q * Q -> result (list (list Q)))
    front side gender h w a e :
  valid_inputs gender h w a ->
  (proc front = Raise e ->
   predict_measurements proc model front side gender h w a =
   ([EvProcessImage front;
     EvLogError ("Prediction failed: " +:+ exn_str e)], Raise e)) /\
  (forall fa, proc front = Ok fa -> proc side = Raise e ->
   predict_measurements proc model front side gender h w a =
   ([EvProcessImage front; EvProcessImage side;
     EvLogError ("Prediction failed: " +:+ exn_str e)], Raise e)).
Proof.
  intros Hv. apply validate_inputs_ok in Hv.
  split.
  - intros Hf. unfold predict_measurements, process_single_person.
    rewrite Hv, Hf. reflexivity.
  - intros fa Hf Hs. unfold predict_measurements, process_single_person.
    rewrite Hv, Hf, Hs. reflexivity.
Qed.

Lemma preprocessing_failure_witness :
  let proc path :=
    if String.eqb path "side.png" then Raise (ExternalError "cannot identify image file")
    else Ok tt in
  valid_inputs 0 185 70 "all" /\
  predict_measurements proc stub_model "front.png" "side.png" 0 185 70 "all" =
  ([EvProcessImage "front.png"; EvProcessImage "side.png";
    EvLogError "Prediction failed: cannot identify image file"],
   Raise (ExternalError "cannot identify image file")).
Proof.
  intros proc.
  assert (Hv : valid_inputs 0 185 70 "all").
  { repeat split; try (vm_compute; discriminate); [now left | now right; right]. }
  split; [exact Hv|].
  exact (proj2 (preprocessing_failure proc stub_model "front.png" "side.png"
                  0 185 70 "all" _ Hv) tt eq_refl eq_refl).
Defined.

(** X14.  Why a run raises: an input is invalid, or the preprocessor raised on
    one of the two images, or the model raised, or the model's output has
    no row 0 with 14 entries ([IndexError]).  The classifier, which gets
    the complete measurement set, never makes a run fail. *)
Theorem failure_causes {image}
    (proc : string -> result image)
    (model : image -> image -> Z * Q * Q -> result (list (list Q)))
    front side gender h w a e :
  (predict_measurements proc model front side gender h w a).2 = Raise e ->
  validate_inputs gender h w a = Raise e \/
  proc front = Raise e \/
  proc side = Raise e \/
  (exists fa sa, model fa sa (gender, h, w) = Raise e) \/
  (exists fa sa p,
     model fa sa (gender, h, w) = Ok p /\ e = IndexError /\
     forall row rest, p = row :: rest -> (length row < 14)%nat).
Proof.
  rewrite predict_measurements_snd.
  destruct (validate_inputs gender h w a) as [[]|e0] eqn:Hv; cbn [rbind];
    [|intros [= ->]; now left].
  destruct (proc front) as [fa|e0]; cbn [rbind];
    [|intros [= ->]; right; now left].
  destruct (proc side) as [sa|e0]; cbn [rbind];
    [|intros [= ->]; right; right; now left].
  destruct (model fa sa (gender, h, w)) as [p|e0] eqn:Hp; cbn [rbind];
    [|intros [= ->]; right; right; right; left; eauto].
  destruct (build_measurements p) as [m|e0] eqn:Hm; cbn [rbind].
  - destruct (build_measurements_spec _ _ Hm) as (_ & _ & Hwf & _).
    destruct (assemble_result_total gender w a m Hwf) as [res Hres].
    rewrite Hres. discriminate.
  - intros [= ->]. right; right; right; right. exists fa, sa, p.
    split; [exact Hp|].
    destruct p as [|row rest].
    + split; [now injection Hm as <-|]. intros ? ? [=].
    + destruct (le_lt_dec 14 (length row)) as [Hlen|Hlen].
      * destruct (build_measurements_total row rest Hlen) as [m Hm'].
        rewrite Hm' in Hm. discriminate.
      * unfold build_measurements in Hm. cbn [lookup list_lookup] in Hm.
        rewrite (dict_of_row_short _ _ _ "wrist" 13%nat) in Hm;
          [|unfold MEASUREMENT_INDICES; do 13 right; left | lia].
        injection Hm as <-.
        split; [reflexivity|]. intros ? ? [= <- <-]. exact Hlen.
Qed.

Lemma failure_causes_witness :
  let model (front side : unit) (meta : Z * Q * Q) : result (list (list Q)) :=
    Ok [[90; 40]%Q] in
  (predict_measurements stub_process_image model "front.png" "side.png"
     0 185 70 "all").2 = Raise IndexError /\
  exists fa sa p, model fa sa (0, 185%Q, 70%Q) = Ok p /\
    forall row rest, p = row :: rest -> (length row < 14)%nat.
Proof.
  intros model.
  assert (Hrun :
    (predict_measurements stub_process_image model "front.png" "side.png"
       0 185 70 "all").2 = Raise IndexError) by (vm_compute; reflexivity).
  split; [exact Hrun|].
  destruct (failure_causes stub_process_image model "front.png" "side.png"
              0 185 70 "all" IndexError Hrun)
    as [Hv|[Hf|[Hs|[(fa & sa & Hm)|(fa & sa & p & Hp & _ & Hshort)]]]];
    try discriminate.
  exists fa, sa, p. split; [exact Hp | exact Hshort].
Defined.

(** ** Validation order *)

(** X15.  The checks run in the order gender, height, weight, apparel type, and
    the first one that fails decides the message, whatever the later
    fields hold. *)
Theorem validation_order gender h w a :
  (~ valid_gender gender ->
   validate_inputs gender h w a =
   Raise (ValueError "Gender must be 0 (male) or 1 (female).")) /\
  (valid_gender gender -> ~ valid_height h ->
   validate_inputs gender h w a =
   Raise (ValueError "Height must be between 100-250 cm.")) /\
  (valid_gender gender -> valid_height h -> ~ valid_weight w ->
   validate_inputs gender h w a =
   Raise (ValueError "Weight must be between 30-300 kg.")) /\
  (valid_gender gender -> valid_height h -> valid_weight w ->
   ~ valid_apparel a ->
   validate_inputs gender h w a =
   Raise (ValueError "Apparel type must be 'tshirt', 'pants', or 'all'.")).
Proof.
  unfold validate_inputs.
  rewrite <- valid_gender_iff, <- valid_height_iff, <- valid_weight_iff,
    <- valid_apparel_iff.
  destruct ((gender =? 0) || (gender =? 1));
    destruct (Qle_bool 100 h && Qle_bool h 250);
    destruct (Qle_bool 30 w && Qle_bool w 300);
    destruct (existsb (String.eqb a) ["tshirt"; "pants"; "all"]);
    cbn [negb]; repeat split; intros; congruence.
Qed.

Lemma validation_order_witness :
  (~ valid_gender 2) /\
  validate_inputs 2 0 0 "socks" =
  Raise (ValueError "Gender must be 0 (male) or 1 (female).").
Proof.
  assert (Hg : ~ valid_gender 2) by (intros [H|H]; discriminate).
  split; [exact Hg|].
  exact (proj1 (validation_order 2 0 0 "socks") Hg).
Defined.

(** ** What is returned for each apparel type *)

Lemma assemble_result_snd gender w a (m : gmap string Q) :
  (assemble_result gender w a m).2 =
  if String.eqb a "tshirt" then
    size <~ calculate_tshirt_size gender m w;
    Ok (<["upper_body_measurements" := VDict (select_keys upper_body_keys m)]>
          (<["tshirt_size" := VStr size]> ∅))
  else if String.eqb a "pants" then
    size <~ calculate_pants_size gender m w;
    Ok (<["lower_body_measurements" := VDict (select_keys lower_body_keys m)]>
          (<["pants_size" := VInt size]> ∅))
  else if String.eqb a "all" then
    sizes <~ calculate_apparel_size gender m w;
    Ok (<["pants_size" := VInt sizes.2]>
          (<["tshirt_size" := VStr sizes.1]>
             (<["body_measurements" := VDict m]> ∅)))
  else Ok ∅.
Proof.
  unfold assemble_result.
  destruct (String.eqb a "tshirt");
    [destruct (calculate_tshirt_size gender m w); reflexivity|].
  destruct (String.eqb a "pants");
    [destruct (calculate_pants_size gender m w); reflexivity|].
  destruct (String.eqb a "all");
    [destruct (calculate_apparel_size gender m w); reflexivity|reflexivity].
Qed.

(** X16.  A run that returns gives, for "tshirt", exactly the t-shirt size and
    the upper-body measurements; for "pants", exactly the pants size and
    the lower-body measurements; for "all", exactly the whole measurement
    set and both sizes.  The sizes are those of the classifier on the
    measurement set, so a size is the same in "all" as alone. *)
Theorem result_shape {image}
    (proc : string -> result image)
    (model : image -> image -> Z * Q * Q -> result (list (list Q)))
    front side gender h w a trace (res : gmap string pyvalue) :
  predict_measurements proc model front side gender h w a = (trace, Ok res) ->
  exists fa sa p (m : gmap string Q) label size,
    model fa sa (gender, h, w) = Ok p /\
    build_measurements p = Ok m /\
    calculate_tshirt_size gender m w = Ok label /\
    calculate_pants_size gender m w = Ok size /\
    ((a = "tshirt" /\
      res = <["upper_body_measurements" := VDict (select_keys upper_body_keys m)]>
              (<["tshirt_size" := VStr label]> ∅)) \/
     (a = "pants" /\
      res = <["lower_body_measurements" := VDict (select_keys lower_body_keys m)]>
              (<["pants_size" := VInt size]> ∅)) \/
     (a = "all" /\
      res = <["pants_size" := VInt size]>
              (<["tshirt_size" := VStr label]>
                 (<["body_measurements" := VDict m]> ∅)))).
Proof.
  intros Hrun.
  pose proof (predict_measurements_snd proc model front side gender h w a) as Hsnd.
  rewrite Hrun in Hsnd. cbn [snd] in Hsnd. symmetry in Hsnd.
  destruct (validate_inputs gender h w a) as [[]|e] eqn:Hv; [|discriminate].
  cbn [rbind] in Hsnd.
  destruct (proc front) as [fa|e]; [|discriminate].
  destruct (proc side) as [sa|e]; [|discriminate].
  cbn [rbind] in Hsnd.
  destruct (model fa sa (gender, h, w)) as [p|e] eqn:Hp; [|discriminate].
  cbn [rbind] in Hsnd.
  destruct (build_measurements p) as [m|e] eqn:Hm; [|discriminate].
  cbn [rbind] in Hsnd.
  destruct (build_measurements_spec _ _ Hm) as (_ & _ & Hwf & _).
  destruct (well_formed_classifier_keys m Hwf)
    as ([c Hc] & [s Hs] & [ht Hh] & [wa Hw] & [hp Hhp]).
  pose proof (calculate_tshirt_size_eq gender m w _ _ _ Hc Hs Hh) as Ht.
  pose proof (calculate_pants_size_eq gender m w _ _ _ Hw Hhp Hh) as Hpa.
  eexists fa, sa, p, m, _, _.
  split; [exact Hp|]. split; [exact Hm|].
  split; [exact Ht|]. split; [exact Hpa|].
  rewrite assemble_result_snd in Hsnd.
  unfold calculate_apparel_size in Hsnd. rewrite Ht, Hpa in Hsnd.
  cbn [rbind fst snd] in Hsnd.
  assert (Ha : valid_apparel a).
  { apply valid_apparel_iff.
    unfold validate_inputs in Hv.
    destruct (negb ((gender =? 0) || (gender =? 1))); [discriminate|].
    destruct (negb (Qle_bool 100 h && Qle_bool h 250)); [discriminate|].
    destruct (negb (Qle_bool 30 w && Qle_bool w 300)); [discriminate|].
    destruct (existsb (String.eqb a) ["tshirt"; "pants"; "all"]);
      [reflexivity | discriminate]. }
  destruct Ha as [-> | [-> | ->]]; cbn [String.eqb Ascii.eqb Bool.eqb] in Hsnd;
    injection Hsnd as <-.
  - left. split; reflexivity.
  - right; left. split; reflexivity.
  - right; right. split; reflexivity.
Qed.

Lemma result_shape_witness :
  exists trace res,
    predict_measurements stub_process_image stub_model "front.png" "side.png"
      0 185 70 "tshirt" = (trace, Ok res) /\
    exists (m : gmap string Q) label,
      build_measurements [sample_row] = Ok m /\
      calculate_tshirt_size 0 m 70 = Ok label /\
      res = <["upper_body_measurements" := VDict (select_keys upper_body_keys m)]>
              (<["tshirt_size" := VStr label]> ∅).
Proof.
  eexists _, _. split; [exact sample_run_tshirt|].
  destruct (result_shape stub_process_image stub_model "front.png" "side.png"
              0 185 70 "tshirt" _ _ sample_run_tshirt)
    as (fa & sa & p & m & label & size & Hp & Hm & Ht & _ & Hres).
  injection Hp as <-.
  exists m, label. split; [exact Hm|]. split; [exact Ht|].
  destruct Hres as [(_ & Hres)|[(Ha & _)|(Ha & _)]];
    [exact Hres | discriminate Ha | discriminate Ha].
Defined.

(** ** The two partial views of the measurement set *)

Ltac eval_membership :=
  repeat match goal with
    | |- context [bool_decide (?k ∈ ?l)] =>
        let E := fresh "E" in
        destruct (bool_decide (k ∈ l)) eqn:E;
        try (vm_compute in E; discriminate E); clear E
    | |- context [decide (?a = ?b)] =>
        let E := fresh "E" in
        destruct (decide (a = b)) as [E|E];
        try discriminate E; try (exfalso; apply E; reflexivity); clear E
    end.

Lemma select_keys_dom keys (m : gmap string Q) :
  Forall (fun k => is_Some (m !! k)) keys ->
  dom (select_keys keys m) = list_to_set keys.
Proof.
  intros Hall. apply set_eq. intros k.
  rewrite elem_of_dom, select_keys_lookup, elem_of_list_to_set.
  destruct (bool_decide (k ∈ keys)) eqn:E.
  - apply bool_decide_eq_true in E. split; [tauto|]. intros _.
    rewrite Forall_forall in Hall. now apply Hall.
  - apply bool_decide_eq_false in E. split; [|tauto].
    intros [x Hx]. discriminate.
Qed.

Lemma well_formed_names (m : gmap string Q) k v :
  well_formed m -> m !! k = Some v -> k ∈ measurement_names.
Proof.
  unfold well_formed. intros Hm Hk.
  apply (elem_of_list_to_set (C := gset string)). rewrite <- Hm.
  apply elem_of_dom. eauto.
Qed.

(** X17.  On a well-formed measurement set the upper-body view has 7 keys and
    the lower-body view has 6; they share no key, and together they hold
    every measurement except "height", which only "all" returns. *)
Theorem partial_views (m : gmap string Q) :
  well_formed m ->
  select_keys upper_body_keys m ∪ select_keys lower_body_keys m =
    delete "height" m /\
  select_keys upper_body_keys m ##ₘ select_keys lower_body_keys m /\
  size (select_keys upper_body_keys m) = 7%nat /\
  size (select_keys lower_body_keys m) = 6%nat.
Proof.
  intros Hm.
  assert (Hkeys : forall keys, Forall (fun k => k ∈ measurement_names) keys ->
                    Forall (fun k => is_Some (m !! k)) keys).
  { intros keys Hk. eapply Forall_impl; [exact Hk|].
    intros k. now apply well_formed_lookup. }
  split; [|split; [|split]].
  - apply map_eq. intros k.
    rewrite lookup_union, !select_keys_lookup, lookup_delete.
    destruct (m !! k) as [v|] eqn:Hk.
    2:{ destruct (bool_decide (k ∈ upper_body_keys)),
          (bool_decide (k ∈ lower_body_keys)), (decide ("height" = k));
          reflexivity. }
    pose proof (well_formed_names _ _ _ Hm Hk) as Hin.
    rewrite measurement_names_eq in Hin.
    repeat (apply elem_of_cons in Hin as [->|Hin];
            [eval_membership; reflexivity|]).
    inversion Hin.
  - apply map_disjoint_spec. intros k x y.
    rewrite !select_keys_lookup.
    destruct (bool_decide (k ∈ upper_body_keys)) eqn:Eu; [|discriminate].
    apply bool_decide_eq_true in Eu. unfold upper_body_keys in Eu.
    repeat (apply elem_of_cons in Eu as [->|Eu];
            [eval_membership; discriminate|]).
    inversion Eu.
  - rewrite <- size_dom, select_keys_dom.
    + apply size_list_to_set. apply (bool_decide_unpack _). vm_compute. exact I.
    + apply Hkeys. rewrite measurement_names_eq.
      repeat constructor; repeat (first [left | right]).
  - rewrite <- size_dom, select_keys_dom.
    + apply size_list_to_set. apply (bool_decide_unpack _). vm_compute. exact I.
    + apply Hkeys. rewrite measurement_names_eq.
      repeat constructor; repeat (first [left | right]).
Qed.

Lemma partial_views_witness :
  let m := subject 90 40 185 95 120 in
  well_formed m /\
  select_keys upper_body_keys m ∪ select_keys lower_body_keys m =
    delete "height" m /\
  size (select_keys upper_body_keys m) = 7%nat.
Proof.
  intros m.
  assert (Hm : well_formed m) by apply subject_well_formed.
  split; [exact Hm|].
  destruct (partial_views m Hm) as (H1 & _ & H2 & _).
  split; [exact H1 | exact H2].
Defined.

(** * The request handler *)

(** ** Requests with fields of other types *)

(** X20.  What the checks make of a field of another type.  A boolean gender
    counts as 1 or 0; a gender that is not a number, such as the string
    "1" or a missing key, fails the gender check.  With a valid gender, a
    height that is not a number, such as a string or a missing key, makes
    the comparison itself raise [TypeError].  With valid gender, height
    and weight, an apparel type that is missing fails the apparel check:
    the default "all" of the signature is not used. *)
Theorem request_field_types (b : bool) (gender hv wv av : pyobj) :
  validate_request (PyBool b) hv wv av =
    validate_request (PyInt (if b then 1 else 0)) hv wv av /\
  (number_of gender = None ->
   validate_request gender hv wv av =
   inl (Estimator (ValueError "Gender must be 0 (male) or 1 (female)."))) /\
  (number_of hv = None ->
   validate_request (PyInt (if b then 1 else 0)) hv wv av =
   inl (TypeError ("'<=' not supported between instances of 'int' and '"
                   +:+ type_name hv +:+ "'"))) /\
  (forall h w,
     valid_height h -> valid_weight w ->
     validate_request (PyInt (if b then 1 else 0)) (PyFloat h) (PyFloat w) PyNone =
     inl (Estimator (ValueError
            "Apparel type must be 'tshirt', 'pants', or 'all'."))).
Proof.
  split; [|split; [|split]].
  - unfold validate_request. now destruct b.
  - intros Hg. unfold validate_request. now rewrite Hg.
  - intros Hh. unfold validate_request, in_range. rewrite Hh. now destruct b.
  - intros h w Hh Hw. apply valid_height_iff in Hh. apply valid_weight_iff in Hw.
    unfold validate_request, in_range. cbn [number_of].
    change (inject_Z 100) with 100%Q. change (inject_Z 250) with 250%Q.
    change (inject_Z 30) with 30%Q. change (inject_Z 300) with 300%Q.
    rewrite Hh, Hw. now destruct b.
Qed.

Lemma request_field_types_witness :
  number_of (PyStr "1") = None /\ number_of PyNone = None /\
  validate_request (PyStr "1") (PyInt 180) (PyInt 70) (PyStr "all") =
    inl (Estimator (ValueError "Gender must be 0 (male) or 1 (female).")) /\
  validate_request (PyInt 1) PyNone (PyInt 70) (PyStr "all") =
    inl (TypeError "'<=' not supported between instances of 'int' and 'NoneType'").
Proof.
  split; [reflexivity|]. split; [reflexivity|]. split.
  - exact (proj1 (proj2 (request_field_types true (PyStr "1")
                            (PyInt 180) (PyInt 70) (PyStr "all"))) eq_refl).
  - exact (proj1 (proj2 (proj2 (request_field_types true PyNone
                                   PyNone (PyInt 70) (PyStr "all")))) eq_refl).
Defined.

(** ** A request without a height *)

(** C6.  The estimator does not reject every out-of-contract input with an
    error that names the field and its range.  The handler passes
    [input_dict.get("height_cm")], which is [None] when the key is absent;
    with a valid gender the height check [100 <= height_cm] then raises
    [TypeError], whose message names neither the field nor the range.  The
    rejection still comes before any image is processed or the model is
    called: the trace holds the error log only.  An integer height out of
    range, and a missing gender or apparel type, do get the [ValueError]
    that names the field. *)
Theorem request_validation_type_error {image}
    (proc : string -> result image)
    (model : image -> image -> Z * Q * Q -> result (list (list Q)))
    front side :
  predict_measurements_request proc model front side
    (PyInt 0) PyNone (PyInt 70) (PyStr "all") =
  ([EvLogError
      "Prediction failed: '<=' not supported between instances of 'int' and 'NoneType'"],
   inl (TypeError
      "'<=' not supported between instances of 'int' and 'NoneType'")) /\
  predict_measurements_request proc model front side
    (PyInt 0) (PyInt 50) (PyInt 70) (PyStr "all") =
  ([EvLogError "Prediction failed: Height must be between 100-250 cm."],
   inl (Estimator (ValueError "Height must be between 100-250 cm."))) /\
  predict_measurements_request proc model front side
    PyNone PyNone (PyInt 70) (PyStr "all") =
  ([EvLogError "Prediction failed: Gender must be 0 (male) or 1 (female)."],
   inl (Estimator (ValueError "Gender must be 0 (male) or 1 (female)."))).
Proof.
  unfold predict_measurements_request. repeat split.
Qed.

(** The same request through the handler: the response carries the
    [TypeError]'s message. *)
Example request_without_height :
  let input_dict : gmap string pyobj :=
    list_to_map [ ("gender", PyInt 0); ("weight_kg", PyInt 70);
                  ("apparel_type", PyStr "all") ] in
  predict (fun _ => Some (JObject input_dict)) stub_save_temp stub_os_remove
    stub_process_image stub_model (png "front") (png "side") "" =
  ([HTempFile "/tmp/front.png"; HTempFile "/tmp/side.png";
    HPredictor (EvLogError
      "Prediction failed: '<=' not supported between instances of 'int' and 'NoneType'")],
   RError "'<=' not supported between instances of 'int' and 'NoneType'").
Proof. vm_compute. reflexivity. Qed.

(** ** Rejections that touch nothing *)

(** X21.  A request whose [input_data] is not JSON, or whose front or side image
    is not declared JPEG or PNG, is answered with the matching error, the
    JSON check first, then the front image, then the side image, and
    nothing has happened: no temporary file, no call of the estimator.
    These and a failure to save the front image are the only runs that
    leave no trace. *)
Theorem rejected_before_any_file {image file_obj}
    (json_loads : string -> option pyjson)
    (save_temp : file_obj -> result string)
    (os_remove : string -> result unit)
    (proc : string -> result image)
    (model : image -> image -> Z * Q * Q -> result (list (list Q)))
    (front side : UploadFile file_obj) input_data :
  let run := predict json_loads save_temp os_remove proc model
               front side input_data in
  (json_loads input_data = None ->
   run = ([], RError "Invalid JSON format in input_data")) /\
  (is_Some (json_loads input_data) ->
   not_jpeg_or_png (content_type front) = true ->
   run = ([], RError "Front image must be a JPEG or PNG file")) /\
  (is_Some (json_loads input_data) ->
   not_jpeg_or_png (content_type front) = false ->
   not_jpeg_or_png (content_type side) = true ->
   run = ([], RError "Side image must be a JPEG or PNG file")) /\
  (run.1 = [] ->
   json_loads input_data = None \/
   not_jpeg_or_png (content_type front) = true \/
   not_jpeg_or_png (content_type side) = true \/
   exists e, save_temp (file front) = Raise e).
Proof.
  intros run. unfold run, predict. split; [|split; [|split]].
  - now intros ->.
  - intros [j ->] ->. reflexivity.
  - intros [j ->] -> ->. reflexivity.
  - destruct (json_loads input_data) as [j|]; [|now left].
    destruct (not_jpeg_or_png (content_type front)); [right; now left|].
    destruct (not_jpeg_or_png (content_type side)); [right; right; now left|].
    destruct (save_temp (file front)) as [p1|e]; [|right; right; right; eauto].
    destruct (save_temp (file side)) as [p2|e]; [|discriminate].
    destruct j as [d|tn]; [|discriminate].
    destruct (predict_measurements_request _ _ _ _ _ _ _ _) as [t [e|res]];
      [discriminate|].
    destruct (os_remove p1); [|discriminate].
    destruct (os_remove p2); discriminate.
Qed.

Lemma rejected_before_any_file_witness :
  (is_Some (stub_json_loads "ok") /\
   not_jpeg_or_png (content_type (png "front")) = false /\
   not_jpeg_or_png (Some "application/pdf") = true) /\
  predict stub_json_loads stub_save_temp stub_os_remove
    stub_process_image stub_model
    (png "front") {| content_type := Some "application/pdf"; file := "side" |}
    "ok" =
  ([], RError "Side image must be a JPEG or PNG file").
Proof.
  assert (H1 : is_Some (stub_json_loads "ok")) by (eexists; reflexivity).
  split; [split; [exact H1 | split; reflexivity]|].
  exact (proj1 (proj2 (proj2
           (rejected_before_any_file stub_json_loads stub_save_temp
              stub_os_remove stub_process_image stub_model
              (png "front")
              {| content_type := Some "application/pdf"; file := "side" |}
              "ok"))) H1 eq_refl eq_refl).
Defined.

(** ** The temporary files *)

(** X22.  A response with results comes from a request whose [input_data] is a
    JSON object: both uploads were saved, the estimator ran on the two
    temporary files with the four fields of the object and returned these
    results, and then both temporary files were removed, front first. *)
Theorem handler_success {image file_obj}
    (json_loads : string -> option pyjson)
    (save_temp : file_obj -> result string)
    (os_remove : string -> result unit)
    (proc : string -> result image)
    (model : image -> image -> Z * Q * Q -> result (list (list Q)))
    (front side : UploadFile file_obj) input_data trace results :
  predict json_loads save_temp os_remove proc model front side input_data =
    (trace, RResults results) ->
  exists d p1 p2 t,
    json_loads input_data = Some (JObject d) /\
    save_temp (file front) = Ok p1 /\
    save_temp (file side) = Ok p2 /\
    predict_measurements_request proc model p1 p2
      (dict_get d "gender") (dict_get d "height_cm")
      (dict_get d "weight_kg") (dict_get d "apparel_type") = (t, inr results) /\
    trace = ([HTempFile p1; HTempFile p2] ++ map HPredictor t ++
             [HRemove p1; HRemove p2])%list.
Proof.
  unfold predict.
  destruct (json_loads input_data) as [j|]; [|discriminate].
  destruct (not_jpeg_or_png (content_type front)); [discriminate|].
  destruct (not_jpeg_or_png (content_type side)); [discriminate|].
  destruct (save_temp (file front)) as [p1|e]; [|discriminate].
  destruct (save_temp (file side)) as [p2|e]; [|discriminate].
  destruct j as [d|tn]; [|discriminate].
  destruct (predict_measurements_request _ _ _ _ _ _ _ _) as [t [e|res]] eqn:Hreq;
    [discriminate|].
  destruct (os_remove p1); [|discriminate].
  destruct (os_remove p2); [|discriminate].
  intros [= <- <-]. exists d, p1, p2, t.
  repeat split; try reflexivity. exact Hreq.
Qed.

Lemma handler_success_witness :
  exists trace results,
    predict stub_json_loads stub_save_temp stub_os_remove
      stub_process_image stub_model (png "front") (png "side") "ok" =
    (trace, RResults results) /\
    exists t,
      trace = ([HTempFile "/tmp/front.png"; HTempFile "/tmp/side.png"] ++
               map HPredictor t ++
               [HRemove "/tmp/front.png"; HRemove "/tmp/side.png"])%list.
Proof.
  destruct (predict stub_json_loads stub_save_temp stub_os_remove
              stub_process_image stub_model (png "front") (png "side") "ok")
    as [trace [msg|results]] eqn:Hrun; [vm_compute in Hrun; discriminate Hrun|].
  exists trace, results. split; [reflexivity|].
  destruct (handler_success _ _ _ _ _ _ _ _ _ _ Hrun)
    as (d & p1 & p2 & t & _ & H1 & H2 & _ & Ht).
  injection H1 as <-. injection H2 as <-. exists t. exact Ht.
Defined.

(** X23.  Once both uploads are saved, a request that fails leaves the two
    temporary files behind: when [input_data] is JSON but not an object,
    the estimator is not called and the error is the [AttributeError] of
    [.get]; when the estimator raises, the error is its message; in both
    cases nothing is removed. *)
Theorem handler_failure_keeps_files {image file_obj}
    (json_loads : string -> option pyjson)
    (save_temp : file_obj -> result string)
    (os_remove : string -> result unit)
    (proc : string -> result image)
    (model : image -> image -> Z * Q * Q -> result (list (list Q)))
    (front side : UploadFile file_obj) input_data j p1 p2 :
  json_loads input_data = Some j ->
  not_jpeg_or_png (content_type front) = false ->
  not_jpeg_or_png (content_type side) = false ->
  save_temp (file front) = Ok p1 ->
  save_temp (file side) = Ok p2 ->
  let run := predict json_loads save_temp os_remove proc model
               front side input_data in
  (forall tn, j = JNotObject tn ->
     run = ([HTempFile p1; HTempFile p2],
            RError ("'" +:+ tn +:+ "' object has no attribute 'get'"))) /\
  (forall d t e, j = JObject d ->
     predict_measurements_request proc model p1 p2
       (dict_get d "gender") (dict_get d "height_cm")
       (dict_get d "weight_kg") (dict_get d "apparel_type") = (t, inl e) ->
     run = (([HTempFile p1; HTempFile p2] ++ map HPredictor t)%list,
            RError (pyexn_str e)) /\
     forall p, HRemove p ∉ run.1).
Proof.
  intros Hj Hf Hs H1 H2 run. unfold run, predict.
  rewrite Hj, Hf, Hs, H1, H2. split.
  - intros tn ->. reflexivity.
  - intros d t e -> Hreq. rewrite Hreq. split; [reflexivity|].
    intros p Hin. cbn [fst] in Hin.
    apply elem_of_app in Hin as [Hin|Hin].
    + repeat (apply elem_of_cons in Hin as [Hin|Hin]; [discriminate|]).
      inversion Hin.
    + apply list_elem_of_fmap in Hin as (ev & Hev & _). discriminate.
Qed.

Lemma handler_failure_keeps_files_witness :
  (stub_json_loads "{}" = Some (JObject ∅) /\
   not_jpeg_or_png (content_type (png "front")) = false /\
   stub_save_temp "front" = Ok "/tmp/front.png" /\
   stub_save_temp "side" = Ok "/tmp/side.png") /\
  predict stub_json_loads stub_save_temp stub_os_remove
    stub_process_image stub_model (png "front") (png "side") "{}" =
  ([HTempFile "/tmp/front.png"; HTempFile "/tmp/side.png";
    HPredictor (EvLogError
      "Prediction failed: Gender must be 0 (male) or 1 (female).")],
   RError "Gender must be 0 (male) or 1 (female).").
Proof.
  split; [repeat split; reflexivity|].
  exact (proj1 (proj2 (handler_failure_keeps_files stub_json_loads stub_save_temp
           stub_os_remove stub_process_image stub_model
           (png "front") (png "side") "{}" (JObject ∅)
           "/tmp/front.png" "/tmp/side.png"
           eq_refl eq_refl eq_refl eq_refl eq_refl)
         ∅ _ _ eq_refl eq_refl)).
Defined.

(** ** A run that returns *)

Lemma predict_measurements_succeeds_witness :
  (valid_inputs 0 185 70 "all" /\ (14 <= length sample_row)%nat) /\
  exists res,
    (predict_measurements stub_process_image stub_model "front.png" "side.png"
       0 185 70 "all").2 = Ok res.
Proof.
  assert (Hv : valid_inputs 0 185 70 "all").
  { repeat split; try (vm_compute; discriminate); [now left | now right; right]. }
  assert (Hlen : (14 <= length sample_row)%nat) by (cbn; lia).
  split; [split; assumption|].
  exact (predict_measurements_succeeds stub_process_image stub_model
           "front.png" "side.png" 0 185 70 "all" tt tt sample_row []
           Hv eq_refl eq_refl eq_refl Hlen).
Defined.
